(** * importscanner: a shallow embedding of [importscanner/cli.py]

    The development follows the Python module function by function.
    Module names, paths and log messages are byte strings; sets of module
    names are [gset string]; the alias dictionary is a [gmap].  The
    collaborators the module only queries (the standard-library table, the
    installed distributions, the file system and the parser) are fields of
    an environment record [Env].  Everything that logs, raises or touches
    the memoisation cache lives in a small state-and-exception monad [M]. *)

From Stdlib Require Import String Ascii List Bool Arith Lia.
From stdpp Require Import base gmap sets list strings sorting pretty.

Local Open Scope string_scope.
Local Open Scope list_scope.
Set Warnings "-register-all,-clear-no-such-hyp".

(** ** Strings: the [str] methods the module calls *)

Module Str.

(** [c.lower()] on one character; only the ASCII letters A-Z have a
    lowercase form in this byte-string model. *)
Definition lower_ascii (c : ascii) : ascii :=
  let n := nat_of_ascii c in
  if (65 <=? n)%nat && (n <=? 90)%nat then ascii_of_nat (n + 32) else c.

(** [s.lower()] *)
Fixpoint lower (s : string) : string :=
  match s with
  | EmptyString => EmptyString
  | String c rest => String (lower_ascii c) (lower rest)
  end.

(** [s.split(sep)] for a one-character separator: never empty, and the
    first element is the text before the first separator. *)
Fixpoint split (sep : ascii) (s : string) : list string :=
  match s with
  | EmptyString => [EmptyString]
  | String c rest =>
      if Ascii.eqb c sep then EmptyString :: split sep rest
      else match split sep rest with
           | [] => [String c EmptyString]
           | seg :: segs => String c seg :: segs
           end
  end.

(** [s.startswith(p)] *)
Definition startswith (p s : string) : bool := String.prefix p s.

(** [s.endswith(p)] *)
Definition endswith (p s : string) : bool :=
  let n := String.length s in
  let k := String.length p in
  (k <=? n)%nat && String.eqb (String.substring (n - k) k s) p.

End Str.

(** the line feed character *)
Definition newline : string := String (ascii_of_nat 10) EmptyString.

(** [alias.name.split(".")[0]]: the first dotted segment. *)
Definition first_segment (name : string) : string :=
  hd EmptyString (Str.split "."%char name).

(** [os.path.join(a, b)] as [posixpath] defines it. *)
Definition os_path_join (a b : string) : string :=
  if Str.startswith "/" b then b
  else if String.eqb a "" || Str.endswith "/" a then a +:+ b
  else a +:+ "/" +:+ b.

(** ** Exceptions, log records, results *)

(** The exception classes the module distinguishes in its [except]
    clauses; [OtherException] stands for any other subclass of
    [Exception] ([ValueError], [RecursionError], ...). *)
Inductive exn_class :=
  | SyntaxError
  | UnicodeDecodeError
  | OSError
  | PackageNotFoundError
  | OtherException.

Global Instance exn_class_eq_dec : EqDecision exn_class.
Proof. solve_decision. Defined.

(** An exception value: its class and [str(e)]. *)
Record exn := MkExn { exn_cls : exn_class; exn_str : string }.

Inductive result (A : Type) :=
  | Ok (a : A)
  | Raise (e : exn).
Arguments Ok {A} a.
Arguments Raise {A} e.

Definition is_Ok {A} (r : result A) : bool :=
  match r with Ok _ => true | Raise _ => false end.

Inductive level := DEBUG | INFO | WARNING | ERROR.

Global Instance level_eq_dec : EqDecision level.
Proof. solve_decision. Defined.

Definition log_record : Type := level * string.

(** ** The syntax trees [ast.parse] returns

    Only the two import statements are told apart; every other node class
    is [Other] with its child nodes.  The [alias] entries of an import are
    nodes of their own, as in [ast]. *)
Record alias := MkAlias { alias_name : string; alias_asname : option string }.

Inductive node :=
  | Import (names : list alias)
  | ImportFrom (module : option string) (names : list alias) (level : nat)
  | Alias (a : alias)
  | Other (children : list node).

(** [ast.iter_child_nodes] *)
Definition iter_child_nodes (n : node) : list node :=
  match n with
  | Import names => map Alias names
  | ImportFrom _ names _ => map Alias names
  | Alias _ => []
  | Other children => children
  end.

Fixpoint node_size (n : node) : nat :=
  match n with
  | Import names => S (length names)
  | ImportFrom _ names _ => S (length names)
  | Alias _ => 1
  | Other children => S (list_sum (map node_size children))
  end.

(** [ast.walk]: breadth first over a queue, [todo.popleft()] then
    [todo.extend(iter_child_nodes(node))].  The loop is bounded by a
    counter; [walk] starts it with the number of nodes of the tree. *)
Fixpoint walk_loop (fuel : nat) (todo : list node) : list node :=
  match fuel, todo with
  | S fuel', n :: rest => n :: walk_loop fuel' (rest ++ iter_child_nodes n)
  | _, _ => []
  end.

Definition walk (tree : node) : list node := walk_loop (node_size tree) [tree].

(** All nodes of a tree, by structural recursion (depth first). *)
Fixpoint subnodes (n : node) : list node :=
  n :: match n with
       | Import names => map Alias names
       | ImportFrom _ names _ => map Alias names
       | Alias _ => []
       | Other children => flat_map subnodes children
       end.

(** ** The environment *)

Record Env := MkEnv {
  (** [sys.version_info.major], [sys.version_info.minor] *)
  sys_version_info : nat * nat;
  (** [stdlib_list(version)]: the table for a version, or an exception *)
  stdlib_list : string -> result (list string);
  (** the set [get_all_installed_top_level_modules()] returns *)
  get_all_installed_top_level_modules : gset string;
  (** [importlib.metadata.version(name)] *)
  metadata_version : string -> result string;
  (** [os.walk(path)]: the [(root, dirs, files)] triples *)
  os_walk : string -> list (string * list string * list string);
  (** [open(path, encoding="utf-8")], [read()] and [ast.parse] in one *)
  read_and_parse : string -> result node;
  (** [open(path, "w")] *)
  open_for_writing : string -> result unit
}.

(** ** Program state: the log, the [lru_cache] of [is_installed_package]
    (most recently used first), the files written. *)
Record State := MkState {
  log : list log_record;
  installed_cache : list (string * bool);
  files : gmap string string
}.

Definition init_state : State :=
  {| log := []; installed_cache := []; files := ∅ |}.

(** ** The monad *)

Definition M (A : Type) : Type := State -> result A * State.

Definition ret {A} (a : A) : M A := fun s => (Ok a, s).

Definition bind {A B} (m : M A) (k : A -> M B) : M B :=
  fun s => match m s with
           | (Ok a, s') => k a s'
           | (Raise e, s') => (Raise e, s')
           end.

Notation "'let*' x := m 'in' k" := (bind m (fun x => k))
  (at level 10, x name, m at level 100, k at level 200).
Notation "m ;; k" := (bind m (fun _ => k))
  (at level 100, k at level 200, right associativity).

(** a call of a collaborator: its value, or its exception raised *)
Definition call {A} (r : result A) : M A := fun s => (r, s).

(** [logger.<level>(msg)] *)
Definition logger (lv : level) (msg : string) : M unit :=
  fun s => (Ok tt, {| log := log s ++ [(lv, msg)];
                      installed_cache := installed_cache s;
                      files := files s |}).

(** [try: body except ...: handler]; [handler e = None] when no clause
    matches [e], which then propagates. *)
Definition try_except {A} (body : M A) (handler : exn -> option (M A)) : M A :=
  fun s => match body s with
           | (Ok a, s') => (Ok a, s')
           | (Raise e, s') =>
               match handler e with
               | Some h => h s'
               | None => (Raise e, s')
               end
           end.

(** [for x in xs: acc = body(acc, x)] *)
Fixpoint for_each {A B} (xs : list A) (body : B -> A -> M B) (acc : B) : M B :=
  match xs with
  | [] => ret acc
  | x :: xs' => let* acc' := body acc x in for_each xs' body acc'
  end.

(** [functools.lru_cache(maxsize)] around a one-argument function whose
    cache is the [installed_cache] field. *)
Definition cache_lookup (key : string) (c : list (string * bool)) : option bool :=
  snd <$> List.find (fun kv => String.eqb (fst kv) key) c.

Definition cache_remove (key : string) (c : list (string * bool)) : list (string * bool) :=
  List.filter (fun kv => negb (String.eqb (fst kv) key)) c.

Definition set_cache (c : list (string * bool)) (s : State) : State :=
  {| log := log s; installed_cache := c; files := files s |}.

Definition lru_cache (maxsize : nat) (f : string -> M bool) (key : string) : M bool :=
  fun s => match cache_lookup key (installed_cache s) with
           | Some v =>
               (Ok v, set_cache ((key, v) :: cache_remove key (installed_cache s)) s)
           | None =>
               match f key s with
               | (Ok v, s') =>
                   (Ok v, set_cache (take maxsize ((key, v) :: installed_cache s')) s')
               | (Raise e, s') => (Raise e, s')
               end
           end.

(** ** The module *)

(** [SUBMODULE_TO_PACKAGE] *)
Definition SUBMODULE_TO_PACKAGE : gmap string string :=
  {[ "pkg_resources" := "setuptools" ]}.

Section Program.

Variable env : Env.

(** *** Detection logic *)

(** [f"{sys.version_info.major}.{sys.version_info.minor}"] *)
Definition version_str : string :=
  pretty (fst (sys_version_info env)) +:+ "." +:+ pretty (snd (sys_version_info env)).

Definition is_stdlib (module_name : string) : M bool :=
  try_except
    (let* table := call (stdlib_list env version_str) in
     ret (bool_decide (module_name ∈ table)))
    (fun e => Some
       (logger WARNING
          ("Failed to check if '" +:+ module_name +:+ "' is stdlib: " +:+ exn_str e) ;;
        ret false)).

(** the function under the [lru_cache] decorator *)
Definition is_installed_package_body (module_name : string) : M bool :=
  try_except
    (let mod_ := Str.lower module_name in
     let installed : gset string :=
       set_map Str.lower (get_all_installed_top_level_modules env) in
     if bool_decide (mod_ ∈ installed) then ret true
     else
       let actual_name := default mod_ (SUBMODULE_TO_PACKAGE !! mod_) in
       call (metadata_version env actual_name) ;;
       ret true)
    (fun e =>
       match exn_cls e with
       | PackageNotFoundError => Some (ret false)
       | _ => Some
           (logger WARNING
              ("Error checking installed package for '" +:+ module_name +:+ "': "
               +:+ exn_str e) ;;
            ret false)
       end).

(** [@lru_cache()]: the default [maxsize] is 128 *)
Definition is_installed_package : string -> M bool :=
  lru_cache 128 is_installed_package_body.

(** [not is_stdlib(m) and not is_installed_package(m)]; [and] does not
    evaluate its right operand when the left one is false. *)
Definition is_local_module (module_name : string) : M bool :=
  let* std := is_stdlib module_name in
  if negb std then
    let* inst := is_installed_package module_name in
    ret (negb inst)
  else ret false.

(** *** File parsing *)

(** the body of the loop over [ast.walk(tree)] *)
Definition visit (imports : gset string) (n : node) : gset string :=
  match n with
  | Import names =>
      foldl (fun acc a => acc ∪ {[ first_segment (alias_name a) ]}) imports names
  | ImportFrom module _ _ =>
      match module with
      | Some m => if String.eqb m "" then imports
                  else imports ∪ {[ first_segment m ]}
      | None => imports
      end
  | _ => imports
  end.

Definition extract_imports_from_file (file_path : string) : M (gset string) :=
  let* parsed :=
    try_except
      (let* tree := call (read_and_parse env file_path) in ret (Some tree))
      (fun e =>
         match exn_cls e with
         | SyntaxError | UnicodeDecodeError | OSError => Some
             (logger ERROR ("Skipping " +:+ file_path +:+ ": " +:+ exn_str e) ;;
              ret None)
         | _ => None
         end) in
  match parsed with
  | None => ret ∅
  | Some tree => ret (foldl visit ∅ (walk tree))
  end.

Definition scan_directory (path : string) : M (gset string) :=
  logger INFO ("📂 Scanning directory: " +:+ path) ;;
  let* all_imports :=
    for_each (os_walk env path)
      (fun acc '(root, _, files) =>
         for_each files
           (fun acc file =>
              if Str.endswith ".py" file then
                let file_path := os_path_join root file in
                let* imports := extract_imports_from_file file_path in
                ret (acc ∪ imports)
              else ret acc)
           acc)
      (∅ : gset string) in
  logger DEBUG ("🔍 Total unique imports found: " +:+ pretty (size all_imports)) ;;
  ret all_imports.

(** *** Classification *)

(** one iteration of the loop of [classify_imports]; the accumulator is
    [(stdlib, third_party, local)] *)
Definition classify_one (acc : gset string * gset string * gset string)
    (module : string) : M (gset string * gset string * gset string) :=
  let '(stdlib, third_party, local) := acc in
  let* std := is_stdlib module in
  if std then ret (stdlib ∪ {[ module ]}, third_party, local)
  else
    let* inst := is_installed_package module in
    if inst then ret (stdlib, third_party ∪ {[ module ]}, local)
    else
      let* loc := is_local_module module in
      if loc then ret (stdlib, third_party, local ∪ {[ module ]})
      else ret (stdlib, third_party ∪ {[ module ]}, local).

(** the loop, over the names in the order the set yields them *)
Definition classify_loop (modules : list string)
    : M (gset string * gset string * gset string) :=
  for_each modules classify_one (∅, ∅, ∅).

Definition classify_imports (imports : gset string)
    : M (gset string * gset string * gset string) :=
  classify_loop (elements imports).

(** *** The manifest *)

(** [sorted(third_party)]: ascending in the order of [str] *)
Definition sorted (names : gset string) : list string :=
  merge_sort String.le (elements names).

(** [f.write(text)] on the file opened as [path] *)
Definition write (path text : string) : M unit :=
  fun s => (Ok tt, {| log := log s;
                      installed_cache := installed_cache s;
                      files := <[ path := default "" (files s !! path) +:+ text ]> (files s) |}).

(** [open(path, "w")]: raises, or leaves the file empty *)
Definition open_w (path : string) : M unit :=
  call (open_for_writing env path) ;;
  (fun s => (Ok tt, {| log := log s;
                       installed_cache := installed_cache s;
                       files := <[ path := "" ]> (files s) |})).

Definition save_requirements (third_party : gset string) : M unit :=
  logger INFO "💾 Saving requirements.txt..." ;;
  try_except
    (open_w "requirements.txt" ;;
     for_each (sorted third_party)
       (fun _ pkg =>
          try_except
            (let* version := call (metadata_version env pkg) in
             write "requirements.txt" (pkg +:+ "==" +:+ version +:+ newline))
            (fun e => Some
               (logger WARNING
                  ("⚠️ Could not get version for '" +:+ pkg +:+ "': " +:+ exn_str e) ;;
                write "requirements.txt" (pkg +:+ newline))))
       tt ;;
     logger INFO "✅ requirements.txt saved.")
    (fun e => Some
       (logger ERROR ("❌ Failed to save requirements.txt: " +:+ exn_str e))).

End Program.

(** ** What the oracles answer

    Both oracles are functions of the environment alone; the two
    definitions below are those answers as plain booleans.  The lemmas
    after them show the monadic functions return exactly these, whatever
    the log holds and for every cache whose entries are right. *)

Definition stdlib_answer (env : Env) (module_name : string) : bool :=
  match stdlib_list env (version_str env) with
  | Ok table => bool_decide (module_name ∈ table)
  | Raise _ => false
  end.

Definition in_installed_index (env : Env) (module_name : string) : bool :=
  bool_decide (Str.lower module_name ∈
    (set_map Str.lower (get_all_installed_top_level_modules env) : gset string)).

(** the distribution name the alias table gives for a lowercased name *)
Definition actual_name (mod_ : string) : string :=
  default mod_ (SUBMODULE_TO_PACKAGE !! mod_).

Definition installed_answer (env : Env) (module_name : string) : bool :=
  in_installed_index env module_name
  || is_Ok (metadata_version env (actual_name (Str.lower module_name))).

(** every cache entry holds the answer of the function it memoises *)
Definition cache_ok (env : Env) (s : State) : Prop :=
  Forall (fun kv => snd kv = installed_answer env (fst kv)) (installed_cache s).

(** [m], started in [s], returns [v] *)
Definition returns {A} (m : M A) (s : State) (v : A) : Prop :=
  fst (m s) = Ok v.

(** a run that only appends to the log *)
Definition only_logs (s s' : State) : Prop :=
  installed_cache s' = installed_cache s /\ files s' = files s /\
  exists entries, log s' = log s ++ entries.

(** a run that leaves the written files alone and the cache right *)
Definition keeps_cache_ok (env : Env) (s s' : State) : Prop :=
  cache_ok env s' /\ files s' = files s /\
  exists entries, log s' = log s ++ entries.


(** ** The decision procedure, name by name *)

Inductive category := Stdlib | ThirdParty | Local.

Global Instance category_eq_dec : EqDecision category.
Proof. solve_decision. Defined.

(** the branch the first three tests of the loop select *)
Definition first_match (env : Env) (module : string) : category :=
  if stdlib_answer env module then Stdlib
  else if installed_answer env module then ThirdParty
  else Local.

(** adding a name to the set of its category *)
Definition place (c : category) (module : string)
    (acc : gset string * gset string * gset string)
    : gset string * gset string * gset string :=
  let '(stdlib, third_party, local) := acc in
  match c with
  | Stdlib => (stdlib ∪ {[ module ]}, third_party, local)
  | ThirdParty => (stdlib, third_party ∪ {[ module ]}, local)
  | Local => (stdlib, third_party, local ∪ {[ module ]})
  end.

(** the set of a category in a result of [classify_imports] *)
Definition set_of (c : category)
    (r : gset string * gset string * gset string) : gset string :=
  let '(stdlib, third_party, local) := r in
  match c with
  | Stdlib => stdlib
  | ThirdParty => third_party
  | Local => local
  end.

(** ** A small environment to run the module in

    Python 3.11 with four standard-library names; [numpy], [click],
    [yaml] and [PIL] importable; versions known for three distributions,
    one distribution whose metadata cannot be read; a project of three
    source files, one of them with a syntax error. *)
Module Sample.

Definition stdlib_table (version : string) : result (list string) :=
  if String.eqb version "3.11" then Ok ["os"; "sys"; "ast"; "json"]
  else Raise (MkExn OtherException "unsupported version").

Definition version_of (name : string) : result string :=
  if String.eqb name "click" then Ok "8.1.3"
  else if String.eqb name "numpy" then Ok "1.26.0"
  else if String.eqb name "setuptools" then Ok "68.0.0"
  else if String.eqb name "broken" then
    Raise (MkExn OtherException "metadata unreadable")
  else Raise (MkExn PackageNotFoundError name).

Definition tree_a : node :=
  Other [ Import [MkAlias "os" None; MkAlias "numpy.linalg" (Some "la")];
          ImportFrom None [MkAlias "utils" None] 1;
          Other [ ImportFrom (Some "click.core") [MkAlias "Command" None] 0 ] ].

Definition tree_b : node :=
  Other [ ImportFrom (Some "utils.text") [MkAlias "wrap" None] 1;
          Import [MkAlias "requests" None] ].

Definition parse (path : string) : result node :=
  if String.eqb path "/proj/a.py" then Ok tree_a
  else if String.eqb path "/proj/pkg/b.py" then Ok tree_b
  else if String.eqb path "/proj/bad.py" then
    Raise (MkExn SyntaxError "invalid syntax (bad.py, line 1)")
  else Raise (MkExn OSError "No such file or directory").

Definition tree_of (path : string) : list (string * list string * list string) :=
  if String.eqb path "/proj" then
    [ ("/proj", ["pkg"], ["a.py"; "bad.py"; "README.md"]);
      ("/proj/pkg", [], ["b.py"]) ]
  else [].

Definition env : Env :=
  {| sys_version_info := (3, 11);
     stdlib_list := stdlib_table;
     get_all_installed_top_level_modules := {[ "numpy"; "click"; "yaml"; "PIL" ]};
     metadata_version := version_of;
     os_walk := tree_of;
     read_and_parse := parse;
     open_for_writing := fun _ => Ok tt |}.

End Sample.

(** the lowercased index [is_installed_package] builds *)
Definition installed_lower (env : Env) : gset string :=
  set_map Str.lower (get_all_installed_top_level_modules env).

(** the warning [is_installed_package] logs on an unexpected error *)
Definition installed_warning (module_name : string) (e : exn) : log_record :=
  (WARNING,
   "Error checking installed package for '" +:+ module_name +:+ "': " +:+ exn_str e).

(** the sentence "a name present in the alias table classifies as
    third-party if and only if its mapped target has a successful version
    lookup", read over every environment and every input set *)
Definition alias_iff_target_versioned : Prop :=
  forall (env : Env) (imports : gset string) (s s' : State)
         (name target : string) (r : gset string * gset string * gset string),
    cache_ok env s ->
    SUBMODULE_TO_PACKAGE !! name = Some target ->
    name ∈ imports ->
    classify_imports env imports s = (Ok r, s') ->
    (name ∈ set_of ThirdParty r <-> is_Ok (metadata_version env target) = true).

(** ** Two environments around the alias table *)
Module AliasEnv.

(** [pkg_resources] is importable (some distribution ships it) but no
    distribution called [setuptools] is installed *)
Definition shipped_without_setuptools : Env :=
  {| sys_version_info := (3, 11);
     stdlib_list := Sample.stdlib_table;
     get_all_installed_top_level_modules := {[ "pkg_resources" ]};
     metadata_version := fun name => Raise (MkExn PackageNotFoundError name);
     os_walk := fun _ => [];
     read_and_parse := fun _ => Raise (MkExn OSError "No such file or directory");
     open_for_writing := fun _ => Ok tt |}.

(** [setuptools] is installed and the standard-library table lists
    [pkg_resources] *)
Definition listed_as_stdlib : Env :=
  {| sys_version_info := (3, 11);
     stdlib_list := fun _ => Ok ["os"; "pkg_resources"];
     get_all_installed_top_level_modules := ∅;
     metadata_version := Sample.version_of;
     os_walk := fun _ => [];
     read_and_parse := fun _ => Raise (MkExn OSError "No such file or directory");
     open_for_writing := fun _ => Ok tt |}.

End AliasEnv.

(** ** The extractor, read off the tree *)

(** The names the import statements of a tree refer to, by recursion on
    the tree: the first dotted segment of every name of an [import], the
    first dotted segment of the module of a [from ... import] that has
    one. *)
Fixpoint top_level_names (n : node) : gset string :=
  match n with
  | Import names =>
      list_to_set (map (fun a => first_segment (alias_name a)) names)
  | ImportFrom (Some m) _ _ =>
      if String.eqb m "" then ∅ else {[ first_segment m ]}
  | ImportFrom None _ _ => ∅
  | Alias _ => ∅
  | Other children => ⋃ (map top_level_names children)
  end.

(** the same tree with every [from ... import] made absolute *)
Fixpoint forget_level (n : node) : node :=
  match n with
  | ImportFrom module names _ => ImportFrom module names 0
  | Other children => Other (map forget_level children)
  | _ => n
  end.

(** induction over trees, with the hypothesis for all the children *)
Fixpoint node_induction (P : node -> Prop)
    (HImport : forall names, P (Import names))
    (HFrom : forall module names level, P (ImportFrom module names level))
    (HAlias : forall a, P (Alias a))
    (HOther : forall children, Forall P children -> P (Other children))
    (n : node) : P n :=
  match n with
  | Import names => HImport names
  | ImportFrom module names level => HFrom module names level
  | Alias a => HAlias a
  | Other children =>
      HOther children
        ((fix all (cs : list node) : Forall P cs :=
            match cs with
            | [] => @List.Forall_nil node P
            | c :: cs' =>
                @List.Forall_cons node P c cs'
                  (node_induction P HImport HFrom HAlias HOther c) (all cs')
            end) children)
  end.

(** ** The scan, file by file *)

(** a state with more log records *)
Definition add_log (entries : list log_record) (s : State) : State :=
  {| log := log s ++ entries;
     installed_cache := installed_cache s;
     files := files s |}.

(** the paths [scan_directory] hands to the extractor, in order *)
Definition source_files (env : Env) (path : string) : list string :=
  flat_map (fun '(root, _, files) =>
              map (os_path_join root) (List.filter (Str.endswith ".py") files))
           (os_walk env path).

(** the exceptions the extractor catches *)
Definition skipped (e : exn) : bool :=
  match exn_cls e with
  | SyntaxError | UnicodeDecodeError | OSError => true
  | _ => false
  end.

(** the diagnostic of a skipped file *)
Definition skip_record (file_path : string) (e : exn) : log_record :=
  (ERROR, "Skipping " +:+ file_path +:+ ": " +:+ exn_str e).

(** the diagnostics of a list of files, in order *)
Definition skip_records (env : Env) (paths : list string) : list log_record :=
  flat_map (fun f => match read_and_parse env f with
                     | Ok _ => []
                     | Raise e => [skip_record f e]
                     end) paths.

(** the names of the files of a list that parse *)
Definition parsed_names (env : Env) (paths : list string) : gset string :=
  ⋃ (map (fun f => match read_and_parse env f with
                   | Ok tree => top_level_names tree
                   | Raise _ => ∅
                   end) paths).

(** the membership reading of [parsed_names] is proved below *)

(** the two records that frame the log of [scan_directory] *)
Definition scan_started (path : string) : log_record :=
  (INFO, "📂 Scanning directory: " +:+ path).

Definition scan_finished (all_imports : gset string) : log_record :=
  (DEBUG, "🔍 Total unique imports found: " +:+ pretty (size all_imports)).

(** ** The manifest, line by line *)

(** the line of one package *)
Definition manifest_line (env : Env) (pkg : string) : string :=
  match metadata_version env pkg with
  | Ok version => pkg +:+ "==" +:+ version +:+ newline
  | Raise _ => pkg +:+ newline
  end.

(** the lines of a list of packages, one after the other *)
Definition manifest (env : Env) (pkgs : list string) : string :=
  foldr (fun pkg text => manifest_line env pkg +:+ text) "" pkgs.

(** ** Invariants of the memoisation cache *)

(** the shape [functools.lru_cache] keeps: at most [maxsize] entries, one
    per key *)
Definition cache_wf (s : State) : Prop :=
  length (installed_cache s) <= 128 /\ NoDup (map fst (installed_cache s)).

(** [m] keeps the property [I] of states, however it ends *)
Definition preserves {A} (I : State -> Prop) (m : M A) : Prop :=
  forall s r s', I s -> m s = (r, s') -> I s'.

(** the warning [is_stdlib] logs when the table cannot be queried *)
Definition stdlib_warning (module_name : string) (e : exn) : log_record :=
  (WARNING, "Failed to check if '" +:+ module_name +:+ "' is stdlib: " +:+ exn_str e).

(** the two records of a failed [save_requirements] *)
Definition save_started : log_record := (INFO, "💾 Saving requirements.txt...").

Definition save_failed (e : exn) : log_record :=
  (ERROR, "❌ Failed to save requirements.txt: " +:+ exn_str e).

(** one step of the scan: the names of one more file *)
Definition scan_step (env : Env) (acc : gset string) (file_path : string)
    : M (gset string) :=
  let* imports := extract_imports_from_file env file_path in
  ret (acc ∪ imports).

(** a property of states that does not look at the log *)
Definition log_blind (I : State -> Prop) : Prop :=
  forall s entries, I s -> I (add_log entries s).

(** the cache and the files of a state are those of [s0] *)
Definition same_store (s0 s : State) : Prop :=
  installed_cache s = installed_cache s0 /\ files s = files s0.

(** the cache of a state is that of [s0] and so is every file but
    [requirements.txt] *)
Definition same_but_manifest (s0 s : State) : Prop :=
  installed_cache s = installed_cache s0
  /\ forall path, path <> "requirements.txt" -> files s !! path = files s0 !! path.

(** ** Variations of an environment *)

Definition with_version (env : Env) (version : nat * nat) : Env :=
  {| sys_version_info := version;
     stdlib_list := stdlib_list env;
     get_all_installed_top_level_modules := get_all_installed_top_level_modules env;
     metadata_version := metadata_version env;
     os_walk := os_walk env;
     read_and_parse := read_and_parse env;
     open_for_writing := open_for_writing env |}.

Definition with_os_walk (env : Env)
    (walk_of : string -> list (string * list string * list string)) : Env :=
  {| sys_version_info := sys_version_info env;
     stdlib_list := stdlib_list env;
     get_all_installed_top_level_modules := get_all_installed_top_level_modules env;
     metadata_version := metadata_version env;
     os_walk := walk_of;
     read_and_parse := read_and_parse env;
     open_for_writing := open_for_writing env |}.

Definition with_read_and_parse (env : Env) (parse : string -> result node) : Env :=
  {| sys_version_info := sys_version_info env;
     stdlib_list := stdlib_list env;
     get_all_installed_top_level_modules := get_all_installed_top_level_modules env;
     metadata_version := metadata_version env;
     os_walk := os_walk env;
     read_and_parse := parse;
     open_for_writing := open_for_writing env |}.

Definition with_open_for_writing (env : Env) (open_of : string -> result unit) : Env :=
  {| sys_version_info := sys_version_info env;
     stdlib_list := stdlib_list env;
     get_all_installed_top_level_modules := get_all_installed_top_level_modules env;
     metadata_version := metadata_version env;
     os_walk := os_walk env;
     read_and_parse := read_and_parse env;
     open_for_writing := open_of |}.

Module Variants.

(** the sample project on a Python the table does not know *)
Definition unsupported_python : Env := with_version Sample.env (3, 99).

(** the sample project with a readable [README.md] that is no source file *)
Definition readme_parses : Env :=
  with_read_and_parse Sample.env
    (fun path =>
       if String.eqb path "/proj/README.md" then Ok (Import [MkAlias "hidden" None])
       else Sample.parse path).

(** the sample project where [bad.py] holds a null byte: [ast.parse]
    raises [ValueError] *)
Definition null_byte : Env :=
  with_read_and_parse Sample.env
    (fun path =>
       if String.eqb path "/proj/bad.py" then
         Raise (MkExn OtherException "source code string cannot contain null bytes")
       else Sample.parse path).

(** the sample project walked bottom up *)
Definition bottom_up : Env :=
  with_os_walk Sample.env
    (fun path =>
       if String.eqb path "/proj" then
         [ ("/proj/pkg", [], ["b.py"]);
           ("/proj", ["pkg"], ["README.md"; "bad.py"; "a.py"]) ]
       else []).

(** the sample project in a directory that cannot be written *)
Definition read_only : Env :=
  with_open_for_writing Sample.env
    (fun _ => Raise (MkExn OSError "[Errno 13] Permission denied: 'requirements.txt'")).

(** the sample project with two more files that import the same modules
    in different ways *)
Definition tree_one : node :=
  Other [ Import [MkAlias "numpy.linalg" (Some "la")];
          ImportFrom (Some "os.path") [MkAlias "join" None] 0 ].

Definition tree_two : node :=
  Other [ Import [MkAlias "numpy.linalg" None];
          ImportFrom (Some "os.path") [MkAlias "split" (Some "sp")] 2 ].

Definition two_spellings : Env :=
  with_read_and_parse Sample.env
    (fun path =>
       if String.eqb path "/proj/one.py" then Ok tree_one
       else if String.eqb path "/proj/two.py" then Ok tree_two
       else Sample.parse path).

End Variants.

(** ** Building the index of installed modules

    Text is held as the bytes of its UTF-8 encoding, so the line
    boundaries and the white space of [str] that lie outside ASCII are
    sequences of two or three bytes. *)

Module Text.

Definition code (c : ascii) : nat := nat_of_ascii c.

(** the number of bytes of the line boundary [s] starts with, 0 when it
    starts with none: LF, VT, FF, FS, GS, RS, CR, CR LF, U+0085, U+2028,
    U+2029 *)
Definition line_break_len (s : string) : nat :=
  match s with
  | EmptyString => 0
  | String a rest =>
      if Nat.eqb (code a) 13 then
        match rest with
        | String b _ => if Nat.eqb (code b) 10 then 2 else 1
        | EmptyString => 1
        end
      else if Nat.eqb (code a) 10 || Nat.eqb (code a) 11 || Nat.eqb (code a) 12
              || Nat.eqb (code a) 28 || Nat.eqb (code a) 29 || Nat.eqb (code a) 30
      then 1
      else if Nat.eqb (code a) 194 then
        match rest with
        | String b _ => if Nat.eqb (code b) 133 then 2 else 0
        | EmptyString => 0
        end
      else if Nat.eqb (code a) 226 then
        match rest with
        | String b (String c _) =>
            if Nat.eqb (code b) 128 && (Nat.eqb (code c) 168 || Nat.eqb (code c) 169)
            then 3 else 0
        | _ => 0
        end
      else 0
  end.

(** [s.splitlines()]; [skip] counts the bytes of a boundary still to
    drop *)
Fixpoint splitlines_from (skip : nat) (s : string) : list string :=
  match s with
  | EmptyString => []
  | String c rest =>
      match skip with
      | S skip' => splitlines_from skip' rest
      | 0 =>
          match line_break_len s with
          | S k => EmptyString :: splitlines_from k rest
          | 0 =>
              match splitlines_from 0 rest with
              | [] => [String c EmptyString]
              | line :: lines => String c line :: lines
              end
          end
      end
  end.

Definition splitlines (s : string) : list string := splitlines_from 0 s.

(** the number of bytes of the white space character [s] starts with, 0
    when it starts with none: U+0009 to U+000D, U+001C to U+0020, U+0085,
    U+00A0, U+1680, U+2000 to U+200A, U+2028, U+2029, U+202F, U+205F,
    U+3000 *)
Definition whitespace_len (s : string) : nat :=
  match s with
  | EmptyString => 0
  | String a rest =>
      if (Nat.leb 9 (code a) && Nat.leb (code a) 13)
         || (Nat.leb 28 (code a) && Nat.leb (code a) 32)
      then 1
      else if Nat.eqb (code a) 194 then
        match rest with
        | String b _ =>
            if Nat.eqb (code b) 133 || Nat.eqb (code b) 160 then 2 else 0
        | EmptyString => 0
        end
      else if Nat.eqb (code a) 225 then
        match rest with
        | String b (String c _) =>
            if Nat.eqb (code b) 154 && Nat.eqb (code c) 128 then 3 else 0
        | _ => 0
        end
      else if Nat.eqb (code a) 226 then
        match rest with
        | String b (String c _) =>
            if Nat.eqb (code b) 128
               && ((Nat.leb 128 (code c) && Nat.leb (code c) 138)
                   || Nat.eqb (code c) 168 || Nat.eqb (code c) 169
                   || Nat.eqb (code c) 175)
            then 3
            else if Nat.eqb (code b) 129 && Nat.eqb (code c) 159 then 3
            else 0
        | _ => 0
        end
      else if Nat.eqb (code a) 227 then
        match rest with
        | String b (String c _) =>
            if Nat.eqb (code b) 128 && Nat.eqb (code c) 128 then 3 else 0
        | _ => 0
        end
      else 0
  end.

(** [s.lstrip()] *)
Fixpoint lstrip_from (skip : nat) (s : string) : string :=
  match s with
  | EmptyString => EmptyString
  | String c rest =>
      match skip with
      | S skip' => lstrip_from skip' rest
      | 0 =>
          match whitespace_len s with
          | S k => lstrip_from k rest
          | 0 => s
          end
      end
  end.

Definition lstrip (s : string) : string := lstrip_from 0 s.

(** [s.rstrip()]: a suffix goes when it is white space throughout *)
Fixpoint rstrip (s : string) : string :=
  match s with
  | EmptyString => EmptyString
  | String c rest =>
      if String.eqb (lstrip s) EmptyString then EmptyString
      else String c (rstrip rest)
  end.

(** [s.strip()] *)
Definition strip (s : string) : string := lstrip (rstrip s).

End Text.

(** what [importlib.metadata] tells about one distribution:
    [dist.read_text("top_level.txt")] and [dist.files], each a value, [None]
    or an exception; the files are given as [str(file)] *)
Record Distribution := MkDistribution {
  read_text_top_level : result (option string);
  dist_files : result (option (list string))
}.

Module Discovery.

(** [line.strip() for line in top_level_txt.splitlines() if line.strip()] *)
Definition declared_names (top_level_txt : string) : list string :=
  List.filter (fun name => negb (String.eqb name ""))
    (map Text.strip (Text.splitlines top_level_txt)).

(** [str(file).split("/")[0].split("\\")[0]] *)
Definition top_level_of (file : string) : string :=
  hd EmptyString (Str.split "\"%char (hd EmptyString (Str.split "/"%char file))).

(** the loop over [dist.files or []] *)
Definition add_inferred (top_level_modules : gset string) (files : list string)
    : gset string :=
  foldl (fun acc file =>
           if Str.endswith "__init__.py" file then acc ∪ {[ top_level_of file ]}
           else acc)
        top_level_modules files.

(** the body of the loop over the distributions, with its
    [except Exception: continue] *)
Definition add_distribution (top_level_modules : gset string) (dist : Distribution)
    : gset string :=
  match read_text_top_level dist with
  | Raise _ => top_level_modules
  | Ok top_level_txt =>
      match top_level_txt with
      | Some txt =>
          if String.eqb txt "" then
            match dist_files dist with
            | Raise _ => top_level_modules
            | Ok files => add_inferred top_level_modules (default [] files)
            end
          else top_level_modules ∪ list_to_set (declared_names txt)
      | None =>
          match dist_files dist with
          | Raise _ => top_level_modules
          | Ok files => add_inferred top_level_modules (default [] files)
          end
      end
  end.

(** [get_all_installed_top_level_modules()] over the distributions
    [importlib.metadata.distributions()] yields *)
Definition get_all_installed_top_level_modules (distributions : list Distribution)
    : gset string :=
  foldl add_distribution ∅ distributions.

(** the names one distribution brings, as a list *)
Definition names_of (dist : Distribution) : list string :=
  match read_text_top_level dist with
  | Raise _ => []
  | Ok (Some txt) =>
      if String.eqb txt "" then
        match dist_files dist with
        | Ok (Some files) =>
            map top_level_of (List.filter (Str.endswith "__init__.py") files)
        | _ => []
        end
      else declared_names txt
  | Ok None =>
      match dist_files dist with
      | Ok (Some files) =>
          map top_level_of (List.filter (Str.endswith "__init__.py") files)
      | _ => []
      end
  end.

(** a [top_level.txt] with one name per line *)
Definition top_level_txt_of (names : list string) : string :=
  foldr (fun name text => name +:+ newline +:+ text) "" names.

(** a name made of printable ASCII characters other than the space *)
Definition printable (name : string) : Prop :=
  Forall (fun c => 33 <= Text.code c <= 126) (list_ascii_of_string name).

End Discovery.

Module Installed.

(** three distributions: one that declares its names, one whose names
    come from its files, one whose metadata cannot be read *)
Definition declares : Distribution :=
  {| read_text_top_level := Ok (Some (Discovery.top_level_txt_of ["yaml"; "_yaml"]));
     dist_files := Ok (Some ["yaml/__init__.py"; "_yaml/__init__.py"; "other/__init__.py"]) |}.

Definition infers : Distribution :=
  {| read_text_top_level := Ok None;
     dist_files := Ok (Some ["PIL/__init__.py"; "PIL/Image.py"; "six.py";
                             "PIL/sub/__init__.py"]) |}.

Definition unreadable : Distribution :=
  {| read_text_top_level := Raise (MkExn OtherException "bad metadata");
     dist_files := Ok (Some ["ghost/__init__.py"]) |}.

Definition distributions : list Distribution := [declares; unreadable; infers].

(** the sample environment with the index built from them *)
Definition env : Env :=
  {| sys_version_info := sys_version_info Sample.env;
     stdlib_list := stdlib_list Sample.env;
     get_all_installed_top_level_modules :=
       Discovery.get_all_installed_top_level_modules distributions;
     metadata_version := metadata_version Sample.env;
     os_walk := os_walk Sample.env;
     read_and_parse := read_and_parse Sample.env;
     open_for_writing := open_for_writing Sample.env |}.

End Installed.

(** ** The command line *)

(** where a handler writes *)
Inductive stream := Stderr | LogFile (filename : string).

(** a [logging] handler: its stream, its level, its format *)
Record Handler := MkHandler {
  handler_stream : stream;
  handler_level : level;
  handler_format : string
}.

(** the numeric value of a level in [logging] *)
Definition levelno (lv : level) : nat :=
  match lv with DEBUG => 10 | INFO => 20 | WARNING => 30 | ERROR => 40 end.

(** what the operating system answers about paths: [Path(p).resolve()],
    [path.exists()], [path.is_dir()], and the opening of a log file by
    [logging.FileHandler] *)
Record Paths := MkPaths {
  path_resolve : string -> result string;
  path_exists : string -> bool;
  path_is_dir : string -> bool;
  open_log_file : string -> result unit
}.

(** the namespace [parse_args()] returns *)
Record Args := MkArgs {
  args_path : string;
  args_save : bool;
  args_log : bool
}.

(** the state of the process: the state of the module, what was printed,
    and the level and handlers of the logger named [importscanner] *)
Record Process := MkProcess {
  state : State;
  stdout : list string;
  logger_level : level;
  handlers : list Handler
}.

Definition P (A : Type) : Type := Process -> result A * Process.

Definition retP {A} (a : A) : P A := fun p => (Ok a, p).

Definition bindP {A B} (m : P A) (k : A -> P B) : P B :=
  fun p => match m p with
           | (Ok a, p') => k a p'
           | (Raise e, p') => (Raise e, p')
           end.

Notation "'let!' x := m 'in' k" := (bindP m (fun x => k))
  (at level 10, x name, m at level 100, k at level 200).
Notation "m ;! k" := (bindP m (fun _ => k))
  (at level 100, k at level 200, right associativity).

Definition callP {A} (r : result A) : P A := fun p => (r, p).

Definition set_state (s : State) (p : Process) : Process :=
  {| state := s; stdout := stdout p;
     logger_level := logger_level p; handlers := handlers p |}.

(** a function of the module run inside the process *)
Definition run {A} (m : M A) : P A :=
  fun p => let (r, s) := m (state p) in (r, set_state s p).

(** [print(line)] *)
Definition print (line : string) : P unit :=
  fun p => (Ok tt, {| state := state p; stdout := stdout p ++ [line];
                      logger_level := logger_level p; handlers := handlers p |}).

Definition try_exceptP {A} (body : P A) (handler : exn -> option (P A)) : P A :=
  fun p => match body p with
           | (Ok a, p') => (Ok a, p')
           | (Raise e, p') =>
               match handler e with
               | Some h => h p'
               | None => (Raise e, p')
               end
           end.

Definition set_logger (lv : level) (hs : list Handler) (p : Process) : Process :=
  {| state := state p; stdout := stdout p; logger_level := lv; handlers := hs |}.

Section CommandLine.

Variable env : Env.
Variable paths : Paths.

Definition setup_logger (enable_file_log : bool) : P unit :=
  (fun p => (Ok tt, set_logger DEBUG (handlers p) p)) ;!
  (fun p => (Ok tt, set_logger (logger_level p) [] p)) ;!
  (fun p => (Ok tt,
             set_logger (logger_level p)
               (handlers p ++ [MkHandler Stderr INFO "[%(levelname)s] %(message)s"]) p)) ;!
  if enable_file_log then
    callP (open_log_file paths "importscanner.log") ;!
    (fun p => (Ok tt,
               set_logger (logger_level p)
                 (handlers p ++ [MkHandler (LogFile "importscanner.log") DEBUG
                                   "%(asctime)s [%(levelname)s] %(message)s"]) p))
  else retP tt.

(** ["  - " + "\n  - ".join(sorted(names)) if names else "  (None detected)"] *)
Definition listing (names : gset string) : string :=
  if decide (names = ∅) then "  (None detected)"
  else "  - " +:+ String.concat (newline +:+ "  - ") (sorted names).

Definition main (args : Args) : P unit :=
  setup_logger (args_log args) ;!
  try_exceptP
    (let! path := callP (path_resolve paths (args_path args)) in
     if negb (path_exists paths path) || negb (path_is_dir paths path) then
       run (logger ERROR ("❌ Invalid path: " +:+ path)) ;!
       print ("❌ Invalid path: " +:+ path)
     else
       let! all_imports := run (scan_directory env path) in
       let! classified := run (classify_imports env all_imports) in
       let '(stdlib, third_party, local) := classified in
       print (newline +:+ "📦 Third-Party Packages (installed via pip):") ;!
       print (listing third_party) ;!
       print (newline +:+ "📁 Local Modules (your own project's files/modules):") ;!
       print (listing local) ;!
       print (newline +:+ "📚 Standard Library (built-in Python modules):") ;!
       print (listing stdlib) ;!
       if args_save args then run (save_requirements env third_party)
       else retP tt)
    (fun e => Some
       (run (logger ERROR ("❌ Unexpected error: " +:+ exn_str e)) ;!
        print "❌ An unexpected error occurred. Check importscanner.log for details.")).

End CommandLine.

(** a record of level [lv] passes the logger and the handler *)
Definition reaches (p : Process) (h : Handler) (lv : level) : bool :=
  Nat.leb (levelno (logger_level p)) (levelno lv)
  && Nat.leb (levelno (handler_level h)) (levelno lv).

(** a process that has done nothing yet; the level of a fresh logger is
    that of the root logger *)
Definition init_process : Process :=
  {| state := init_state; stdout := []; logger_level := WARNING; handlers := [] |}.

Module Shell.

(** [/proj] is a directory, [/proj/a.py] a file, nothing else exists;
    the log file can be opened *)
Definition paths : Paths :=
  {| path_resolve := fun p => Ok (if String.eqb p "." then "/proj" else p);
     path_exists := fun p => String.eqb p "/proj" || String.eqb p "/proj/a.py";
     path_is_dir := fun p => String.eqb p "/proj";
     open_log_file := fun _ => Ok tt |}.

(** the same, in a directory where no log file can be created *)
Definition no_log : Paths :=
  {| path_resolve := path_resolve paths;
     path_exists := path_exists paths;
     path_is_dir := path_is_dir paths;
     open_log_file := fun _ =>
       Raise (MkExn OSError "[Errno 13] Permission denied: 'importscanner.log'") |}.

End Shell.

(** the handlers [setup_logger] installs *)
Definition console_handler : Handler :=
  MkHandler Stderr INFO "[%(levelname)s] %(message)s".

Definition file_handler : Handler :=
  MkHandler (LogFile "importscanner.log") DEBUG "%(asctime)s [%(levelname)s] %(message)s".

Definition installed_handlers (enable_file_log : bool) : list Handler :=
  console_handler :: (if enable_file_log then [file_handler] else []).






(** [m] keeps the property [I] of processes, however it ends *)
Definition preservesP {A} (I : Process -> Prop) (m : P A) : Prop :=
  forall p r p', I p -> m p = (r, p') -> I p'.

(** the logger of a process is configured as [lv] and [hs] *)
Definition logger_is (lv : level) (hs : list Handler) (p : Process) : Prop :=
  logger_level p = lv /\ handlers p = hs.

(** ** Trees without the details the extractor does not need *)

(** an [alias] without its as-name *)
Definition plain_alias (a : alias) : alias := MkAlias (alias_name a) None.

(** the same tree where no import has an as-name, no [from ... import]
    lists what it imports, and every level is zero *)
Fixpoint plain_imports (n : node) : node :=
  match n with
  | Import names => Import (map plain_alias names)
  | ImportFrom module _ _ => ImportFrom module [] 0
  | Alias a => Alias (plain_alias a)
  | Other children => Other (map plain_imports children)
  end.
Ltac run_monad :=
  unfold try_except, bind, call, ret, logger in *; simpl in *.

Section Oracles.

Variable env : Env.

Lemma only_logs_refl s : only_logs s s.
Proof. repeat split; exists []; by rewrite app_nil_r. Qed.

Lemma only_logs_keeps s s' :
  cache_ok env s -> only_logs s s' -> keeps_cache_ok env s s'.
Proof.
  intros Hok (Hc & Hf & Hl). repeat split; auto.
  unfold cache_ok in *. by rewrite Hc.
Qed.

Lemma keeps_cache_ok_refl s : cache_ok env s -> keeps_cache_ok env s s.
Proof. intros; apply only_logs_keeps; auto using only_logs_refl. Qed.

Lemma keeps_cache_ok_trans s1 s2 s3 :
  keeps_cache_ok env s1 s2 -> keeps_cache_ok env s2 s3 ->
  keeps_cache_ok env s1 s3.
Proof.
  intros (_ & Hf1 & l1 & Hl1) (Hok & Hf2 & l2 & Hl2).
  repeat split; auto; [congruence|].
  exists (l1 ++ l2). by rewrite Hl2, Hl1, app_assoc.
Qed.

Lemma is_stdlib_run module_name s :
  exists s', is_stdlib env module_name s = (Ok (stdlib_answer env module_name), s')
             /\ only_logs s s'.
Proof.
  unfold is_stdlib, stdlib_answer. run_monad.
  destruct (stdlib_list env (version_str env)) as [table|e]; simpl.
  - eexists; split; [reflexivity | apply only_logs_refl].
  - eexists; split; [reflexivity|]. repeat split; simpl; eauto.
Qed.

Lemma is_installed_package_body_run module_name s :
  exists s', is_installed_package_body env module_name s
               = (Ok (installed_answer env module_name), s')
             /\ only_logs s s'.
Proof.
  unfold is_installed_package_body, installed_answer, in_installed_index,
    actual_name.
  run_monad.
  case_bool_decide; simpl.
  - eexists; split; [reflexivity | apply only_logs_refl].
  - destruct (metadata_version env _) as [v|e]; simpl.
    + eexists; split; [reflexivity | apply only_logs_refl].
    + destruct (exn_cls e); simpl;
        (eexists; split; [reflexivity|]);
        try apply only_logs_refl; repeat split; simpl; eauto.
Qed.

Lemma cache_lookup_ok key v s :
  cache_ok env s -> cache_lookup key (installed_cache s) = Some v ->
  v = installed_answer env key.
Proof.
  unfold cache_ok, cache_lookup. intros Hok Hfind.
  destruct (List.find _ _) as [[k w]|] eqn:Hf; simplify_eq/=.
  apply List.find_some in Hf as [Hin Hk]. simpl in Hk.
  apply String.eqb_eq in Hk as ->.
  rewrite List.Forall_forall in Hok. by apply (Hok _ Hin).
Qed.

Lemma is_installed_package_run module_name s :
  cache_ok env s ->
  exists s', is_installed_package env module_name s
               = (Ok (installed_answer env module_name), s')
             /\ keeps_cache_ok env s s'.
Proof.
  intros Hok. unfold is_installed_package, lru_cache.
  destruct (cache_lookup _ _) as [v|] eqn:Hlook.
  - apply cache_lookup_ok in Hlook as ->; [|done].
    eexists; split; [reflexivity|].
    split; [|split; [done | exists []; simpl; by rewrite app_nil_r]].
    unfold cache_ok in *; simpl. constructor; [done|].
    unfold cache_remove. rewrite List.Forall_forall in *.
    intros kv [Hin _]%List.filter_In. auto.
  - destruct (is_installed_package_body_run module_name s)
      as (s' & -> & Hc & Hf & Hl).
    eexists; split; [reflexivity|].
    split; [|split; [done | done]].
    unfold cache_ok in *; simpl. rewrite Hc.
    constructor; [done | by apply Forall_take].
Qed.

End Oracles.

(** ** The classifier *)

Section Classifier.

Variable env : Env.

Lemma is_local_module_run module s :
  cache_ok env s ->
  exists s', is_local_module env module s
               = (Ok (negb (stdlib_answer env module)
                      && negb (installed_answer env module)), s')
             /\ keeps_cache_ok env s s'.
Proof.
  intros Hok. unfold is_local_module, bind.
  destruct (is_stdlib_run env module s) as (s1 & -> & H1).
  apply (only_logs_keeps env _ _ Hok) in H1.
  destruct (stdlib_answer env module); simpl.
  - eexists; split; [reflexivity | done].
  - destruct (is_installed_package_run env module s1) as (s2 & -> & H2);
      [apply H1|].
    eexists; split; [reflexivity|]. eauto using keeps_cache_ok_trans.
Qed.

Lemma classify_one_run acc module s :
  cache_ok env s ->
  exists s', classify_one env acc module s
               = (Ok (place (first_match env module) module acc), s')
             /\ keeps_cache_ok env s s'.
Proof.
  intros Hok. destruct acc as [[stdlib third_party] local].
  unfold classify_one, first_match, bind.
  destruct (is_stdlib_run env module s) as (s1 & -> & H1).
  apply (only_logs_keeps env _ _ Hok) in H1.
  destruct (stdlib_answer env module) eqn:Hstd; simpl.
  { eexists; split; [reflexivity | done]. }
  destruct (is_installed_package_run env module s1) as (s2 & -> & H2);
    [apply H1|].
  assert (H12 : keeps_cache_ok env s s2) by eauto using keeps_cache_ok_trans.
  destruct (installed_answer env module) eqn:Hinst; simpl.
  { eexists; split; [reflexivity | done]. }
  destruct (is_local_module_run module s2) as (s3 & -> & H3); [apply H2|].
  rewrite Hstd, Hinst; simpl.
  eexists; split; [reflexivity|]. eauto using keeps_cache_ok_trans.
Qed.

Lemma classify_loop_from modules acc s :
  cache_ok env s ->
  exists s', for_each modules (classify_one env) acc s
               = (Ok (foldl (fun a m => place (first_match env m) m a) acc modules), s')
             /\ keeps_cache_ok env s s'.
Proof.
  revert acc s. induction modules as [|m modules IH]; intros acc s Hok; simpl.
  - eexists; split; [reflexivity | by apply keeps_cache_ok_refl].
  - unfold bind.
    destruct (classify_one_run acc m s Hok) as (s1 & -> & H1).
    destruct (IH (place (first_match env m) m acc) s1) as (s2 & -> & H2);
      [apply H1|].
    eexists; split; [reflexivity|]. eauto using keeps_cache_ok_trans.
Qed.

Lemma elem_of_set_of_place c c' m x acc :
  x ∈ set_of c (place c' m acc) <-> x ∈ set_of c acc \/ (x = m /\ c' = c).
Proof.
  destruct acc as [[stdlib third_party] local].
  destruct c, c'; simpl; rewrite ?elem_of_union, ?elem_of_singleton; naive_solver.
Qed.

Lemma elem_of_set_of_foldl c modules x acc :
  x ∈ set_of c (foldl (fun a m => place (first_match env m) m a) acc modules)
  <-> x ∈ set_of c acc \/ (x ∈ modules /\ first_match env x = c).
Proof.
  revert acc. induction modules as [|m modules IH]; intros acc; simpl.
  - set_solver.
  - rewrite IH, elem_of_set_of_place, elem_of_cons. naive_solver.
Qed.

(** the result of [classify_imports]: each set holds the names of the
    input whose first matching test is the one of the set *)
Lemma classify_imports_run imports s :
  cache_ok env s ->
  exists r s', classify_imports env imports s = (Ok r, s')
               /\ keeps_cache_ok env s s'
               /\ forall c x, x ∈ set_of c r <-> x ∈ imports /\ first_match env x = c.
Proof.
  intros Hok. unfold classify_imports, classify_loop.
  destruct (classify_loop_from (elements imports) (∅, ∅, ∅) s Hok)
    as (s' & Hrun & Hkeep).
  eexists _, s'; split; [exact Hrun|]. split; [done|].
  intros c x. rewrite elem_of_set_of_foldl, elem_of_elements.
  destruct c; simpl; set_solver.
Qed.

End Classifier.

(** ** Properties of the classifier *)

(** C1 (partition totality).  From every state whose cache is right,
    [classify_imports] returns three sets whose union is the input set and
    which are pairwise disjoint, so that every name of the input is in
    exactly one of them. *)
Theorem classify_imports_partition (env : Env) (imports : gset string) (s : State) :
  cache_ok env s ->
  exists stdlib third_party local s',
    classify_imports env imports s = (Ok (stdlib, third_party, local), s')
    /\ stdlib ∪ third_party ∪ local = imports
    /\ stdlib ## third_party /\ stdlib ## local /\ third_party ## local
    /\ forall module, module ∈ imports ->
         (module ∈ stdlib /\ (module ∉ third_party) /\ (module ∉ local))
         \/ ((module ∉ stdlib) /\ module ∈ third_party /\ (module ∉ local))
         \/ ((module ∉ stdlib) /\ (module ∉ third_party) /\ module ∈ local).
Proof.
  intros Hok.
  destruct (classify_imports_run env imports s Hok)
    as ([[stdlib third_party] local] & s' & Hrun & _ & Hsets).
  exists stdlib, third_party, local, s'. split; [exact Hrun|].
  pose proof (Hsets Stdlib) as Hs.
  pose proof (Hsets ThirdParty) as Ht.
  pose proof (Hsets Local) as Hl. simpl in Hs, Ht, Hl.
  assert (Hcover : forall x, x ∈ imports ->
            x ∈ stdlib \/ x ∈ third_party \/ x ∈ local).
  { intros x Hx. rewrite Hs, Ht, Hl.
    destruct (first_match env x); auto. }
  assert (Hst : forall x, x ∈ stdlib -> x ∈ third_party -> False).
  { intros x [_ H1]%Hs [_ H2]%Ht. congruence. }
  assert (Hsl : forall x, x ∈ stdlib -> x ∈ local -> False).
  { intros x [_ H1]%Hs [_ H2]%Hl. congruence. }
  assert (Htl : forall x, x ∈ third_party -> x ∈ local -> False).
  { intros x [_ H1]%Ht [_ H2]%Hl. congruence. }
  repeat split.
  - apply set_eq. intros x. rewrite !elem_of_union. split.
    + intros [[H|H]|H]; [apply Hs in H | apply Ht in H | apply Hl in H]; tauto.
    + intros Hx. destruct (Hcover x Hx) as [?|[?|?]]; auto.
  - intros x; apply Hst.
  - intros x; apply Hsl.
  - intros x; apply Htl.
  - intros x Hx. destruct (Hcover x Hx) as [?|[?|?]]; naive_solver.
Qed.

Lemma classify_imports_partition_witness :
  cache_ok Sample.env init_state /\
  exists stdlib third_party local s',
    classify_imports Sample.env {[ "os"; "numpy"; "utils" ]} init_state
      = (Ok (stdlib, third_party, local), s')
    /\ stdlib ∪ third_party ∪ local = {[ "os"; "numpy"; "utils" ]}
    /\ stdlib ## third_party /\ stdlib ## local /\ third_party ## local
    /\ forall module, module ∈ ({[ "os"; "numpy"; "utils" ]} : gset string) ->
         (module ∈ stdlib /\ (module ∉ third_party) /\ (module ∉ local))
         \/ ((module ∉ stdlib) /\ module ∈ third_party /\ (module ∉ local))
         \/ ((module ∉ stdlib) /\ (module ∉ third_party) /\ module ∈ local).
Proof.
  split; [constructor|].
  apply (classify_imports_partition Sample.env _ init_state). constructor.
Defined.

(** C2 (precedence, first match wins).  For every name of the input, asked
    in any state whose cache is right: when [is_stdlib] returns true the
    name is in the stdlib set; when it returns false and
    [is_installed_package] then returns true the name is in the third-party
    set; when both return false the name is in the local set; and in each
    case the name is in no other set. *)
Theorem classify_imports_precedence (env : Env) (imports : gset string) (s : State) :
  cache_ok env s ->
  exists stdlib third_party local s',
    classify_imports env imports s = (Ok (stdlib, third_party, local), s')
    /\ forall module s0, module ∈ imports -> cache_ok env s0 ->
         exists std s1,
           is_stdlib env module s0 = (Ok std, s1)
           /\ (std = true ->
                 module ∈ stdlib /\ (module ∉ third_party) /\ (module ∉ local))
           /\ (std = false ->
                 exists inst s2,
                   is_installed_package env module s1 = (Ok inst, s2)
                   /\ (inst = true ->
                         (module ∉ stdlib) /\ module ∈ third_party /\ (module ∉ local))
                   /\ (inst = false ->
                         (module ∉ stdlib) /\ (module ∉ third_party) /\ module ∈ local)).
Proof.
  intros Hok.
  destruct (classify_imports_run env imports s Hok)
    as ([[stdlib third_party] local] & s' & Hrun & _ & Hsets).
  exists stdlib, third_party, local, s'. split; [exact Hrun|].
  pose proof (Hsets Stdlib) as Hs.
  pose proof (Hsets ThirdParty) as Ht.
  pose proof (Hsets Local) as Hl. simpl in Hs, Ht, Hl.
  intros module s0 Hin Hok0.
  destruct (is_stdlib_run env module s0) as (s1 & Hstd & H1).
  apply (only_logs_keeps env _ _ Hok0) in H1.
  exists (stdlib_answer env module), s1. split; [exact Hstd|].
  unfold first_match in *.
  split.
  - intros Htrue. rewrite Hs, Ht, Hl, Htrue. naive_solver.
  - intros Hfalse.
    destruct (is_installed_package_run env module s1) as (s2 & Hinst & _);
      [apply H1|].
    exists (installed_answer env module), s2. split; [exact Hinst|].
    rewrite Hs, Ht, Hl, Hfalse.
    split; intros ->; naive_solver.
Qed.

Lemma classify_imports_precedence_witness :
  cache_ok Sample.env init_state /\
  exists stdlib third_party local s',
    classify_imports Sample.env {[ "json"; "click"; "helpers" ]} init_state
      = (Ok (stdlib, third_party, local), s')
    /\ forall module s0,
         module ∈ ({[ "json"; "click"; "helpers" ]} : gset string) ->
         cache_ok Sample.env s0 ->
         exists std s1,
           is_stdlib Sample.env module s0 = (Ok std, s1)
           /\ (std = true ->
                 module ∈ stdlib /\ (module ∉ third_party) /\ (module ∉ local))
           /\ (std = false ->
                 exists inst s2,
                   is_installed_package Sample.env module s1 = (Ok inst, s2)
                   /\ (inst = true ->
                         (module ∉ stdlib) /\ module ∈ third_party /\ (module ∉ local))
                   /\ (inst = false ->
                         (module ∉ stdlib) /\ (module ∉ third_party) /\ module ∈ local)).
Proof.
  split; [constructor|].
  apply (classify_imports_precedence Sample.env _ init_state). constructor.
Defined.

(** C3 (the fallback is dead).  Whenever the loop of [classify_imports]
    reaches its third test, that is after [is_stdlib] and then
    [is_installed_package] have returned false for a name,
    [is_local_module] returns true; the iteration therefore ends in the
    local branch and never in the final [else]. *)
Theorem fallback_unreachable (env : Env) (module : string)
    (stdlib third_party local : gset string) (s s1 s2 : State) :
  cache_ok env s ->
  is_stdlib env module s = (Ok false, s1) ->
  is_installed_package env module s1 = (Ok false, s2) ->
  exists s3,
    is_local_module env module s2 = (Ok true, s3)
    /\ classify_one env (stdlib, third_party, local) module s
       = (Ok (stdlib, third_party, local ∪ {[ module ]}), s3).
Proof.
  intros Hok Hstd Hinst.
  destruct (is_stdlib_run env module s) as (s1' & Hstd' & H1).
  rewrite Hstd in Hstd'. injection Hstd' as Hsa <-.
  apply (only_logs_keeps env _ _ Hok) in H1.
  destruct (is_installed_package_run env module s1) as (s2' & Hinst' & H2);
    [apply H1|].
  rewrite Hinst in Hinst'. injection Hinst' as Hia <-.
  destruct (is_local_module_run env module s2) as (s3 & Hloc & _); [apply H2|].
  rewrite <- Hsa, <- Hia in Hloc. simpl in Hloc.
  exists s3. split; [exact Hloc|].
  unfold classify_one, bind. by rewrite Hstd, Hinst, Hloc.
Qed.

Lemma fallback_unreachable_witness :
  cache_ok Sample.env init_state /\
  is_stdlib Sample.env "utils" init_state = (Ok false, init_state) /\
  is_installed_package Sample.env "utils" init_state
    = (Ok false, set_cache [("utils", false)] init_state) /\
  exists s3,
    is_local_module Sample.env "utils" (set_cache [("utils", false)] init_state)
      = (Ok true, s3)
    /\ classify_one Sample.env (∅, ∅, ∅) "utils" init_state
       = (Ok (∅, ∅, ∅ ∪ {[ "utils" ]}), s3).
Proof.
  split; [constructor|]. split; [reflexivity|]. split; [vm_compute; reflexivity|].
  apply (fallback_unreachable Sample.env "utils" ∅ ∅ ∅ init_state init_state
           (set_cache [("utils", false)] init_state)).
  - constructor.
  - reflexivity.
  - vm_compute; reflexivity.
Defined.

(** ** Properties of the installed-package oracle *)









(** ** The alias table *)

Lemma alias_table_lookup name target :
  SUBMODULE_TO_PACKAGE !! name = Some target ->
  name = "pkg_resources" /\ target = "setuptools".
Proof.
  unfold SUBMODULE_TO_PACKAGE. intros H.
  apply lookup_singleton_Some in H. naive_solver.
Qed.

(** C8, as stated, fails in both directions: with [pkg_resources] in the
    installed index and no [setuptools] distribution the name is
    third-party although the lookup of its target fails; with
    [pkg_resources] in the standard-library table it is stdlib although
    the lookup of its target succeeds. *)
Lemma alias_iff_target_versioned_fails :
  ~ alias_iff_target_versioned
  /\ (exists stdlib third_party local s',
        classify_imports AliasEnv.shipped_without_setuptools
          {[ "pkg_resources" ]} init_state
          = (Ok (stdlib, third_party, local), s')
        /\ "pkg_resources" ∈ third_party
        /\ is_Ok (metadata_version AliasEnv.shipped_without_setuptools "setuptools")
           = false)
  /\ (exists stdlib third_party local s',
        classify_imports AliasEnv.listed_as_stdlib
          {[ "pkg_resources" ]} init_state
          = (Ok (stdlib, third_party, local), s')
        /\ ("pkg_resources" ∉ third_party)
        /\ is_Ok (metadata_version AliasEnv.listed_as_stdlib "setuptools") = true).
Proof.
  assert (Hrun1 : exists s',
            classify_imports AliasEnv.shipped_without_setuptools
              {[ "pkg_resources" ]} init_state
            = (Ok (∅, {[ "pkg_resources" ]}, ∅), s')).
  { eexists. vm_compute. reflexivity. }
  assert (Hrun2 : exists s',
            classify_imports AliasEnv.listed_as_stdlib
              {[ "pkg_resources" ]} init_state
            = (Ok ({[ "pkg_resources" ]}, ∅, ∅), s')).
  { eexists. vm_compute. reflexivity. }
  destruct Hrun1 as [s1 Hrun1], Hrun2 as [s2 Hrun2].
  split; [|split].
  - intros Hclaim.
    assert (Hiff := Hclaim AliasEnv.shipped_without_setuptools
                      {[ "pkg_resources" ]} init_state s1
                      "pkg_resources" "setuptools" _
                      (List.Forall_nil _) eq_refl
                      (proj2 (elem_of_singleton _ _) eq_refl) Hrun1).
    simpl in Hiff. apply proj1 in Hiff.
    discriminate Hiff. by apply elem_of_singleton.
  - eexists _, _, _, _. split; [exact Hrun1|].
    split; [by apply elem_of_singleton | reflexivity].
  - eexists _, _, _, _. split; [exact Hrun2|].
    split; [apply not_elem_of_empty | reflexivity].
Qed.

(** C8, amended.  A name of the alias table is in the third-party set
    exactly when [is_stdlib] returns false for it and either its lowercase
    form is in the lowercased installed index or the version lookup of its
    mapped target succeeds. *)
Theorem alias_resolution (env : Env) (imports : gset string) (s : State)
    (name target : string) :
  cache_ok env s ->
  SUBMODULE_TO_PACKAGE !! name = Some target ->
  name ∈ imports ->
  exists stdlib third_party local s',
    classify_imports env imports s = (Ok (stdlib, third_party, local), s')
    /\ (name ∈ third_party <->
        returns (is_stdlib env name) s false
        /\ (Str.lower name ∈ installed_lower env
            \/ is_Ok (metadata_version env target) = true)).
Proof.
  intros Hok Halias Hin.
  destruct (alias_table_lookup _ _ Halias) as [-> ->].
  destruct (classify_imports_run env imports s Hok)
    as ([[stdlib third_party] local] & s' & Hrun & _ & Hsets).
  exists stdlib, third_party, local, s'. split; [exact Hrun|].
  pose proof (Hsets ThirdParty) as Ht. simpl in Ht. rewrite Ht.
  destruct (is_stdlib_run env "pkg_resources" s) as (s1 & Hstd & _).
  unfold returns. rewrite Hstd. simpl.
  unfold first_match, installed_answer, in_installed_index, installed_lower.
  change (actual_name (Str.lower "pkg_resources")) with "setuptools".
  destruct (stdlib_answer env "pkg_resources"); simpl.
  { split; [intros [_ [=]] | intros [[=] _]]. }
  case_bool_decide; simpl.
  - naive_solver.
  - destruct (is_Ok (metadata_version env "setuptools")); naive_solver.
Qed.

Lemma alias_resolution_witness :
  cache_ok Sample.env init_state /\
  SUBMODULE_TO_PACKAGE !! "pkg_resources" = Some "setuptools" /\
  "pkg_resources" ∈ ({[ "pkg_resources"; "os" ]} : gset string) /\
  exists stdlib third_party local s',
    classify_imports Sample.env {[ "pkg_resources"; "os" ]} init_state
      = (Ok (stdlib, third_party, local), s')
    /\ ("pkg_resources" ∈ third_party <->
        returns (is_stdlib Sample.env "pkg_resources") init_state false
        /\ (Str.lower "pkg_resources" ∈ installed_lower Sample.env
            \/ is_Ok (metadata_version Sample.env "setuptools") = true)).
Proof.
  split; [constructor|]. split; [reflexivity|].
  split; [apply elem_of_union_l; by apply elem_of_singleton|].
  apply (alias_resolution Sample.env _ init_state "pkg_resources" "setuptools").
  - constructor.
  - reflexivity.
  - apply elem_of_union_l. by apply elem_of_singleton.
Defined.

(** ** The tree walk *)

Lemma node_size_children n :
  node_size n = S (list_sum (map node_size (iter_child_nodes n))).
Proof.
  destruct n as [names|m names lv|a|children]; simpl; try done;
    f_equal; induction names as [|a names IH]; simpl; auto.
Qed.

Lemma subnodes_children n :
  subnodes n = n :: flat_map subnodes (iter_child_nodes n).
Proof.
  destruct n as [names|m names lv|a|children]; simpl; try done;
    f_equal; induction names as [|a names IH]; simpl; auto; by f_equal.
Qed.

Lemma list_sum_sizes_app l1 l2 :
  list_sum (map node_size (l1 ++ l2))
  = list_sum (map node_size l1) + list_sum (map node_size l2).
Proof. by rewrite map_app, list_sum_app. Qed.

(** with at least as many steps as there are nodes waiting, the loop
    yields every node below the queue, each once *)
Lemma walk_loop_complete fuel todo :
  list_sum (map node_size todo) <= fuel ->
  walk_loop fuel todo ≡ₚ flat_map subnodes todo.
Proof.
  revert todo. induction fuel as [|fuel IH]; intros todo Hfuel.
  - destruct todo as [|n rest]; simpl; [done|].
    simpl in Hfuel. rewrite node_size_children in Hfuel. lia.
  - destruct todo as [|n rest]; simpl; [done|].
    simpl in Hfuel. rewrite node_size_children in Hfuel.
    rewrite (subnodes_children n). simpl. constructor.
    rewrite IH.
    + rewrite flat_map_app. apply Permutation_app_comm.
    + rewrite list_sum_sizes_app. lia.
Qed.

Lemma walk_complete tree : walk tree ≡ₚ subnodes tree.
Proof.
  unfold walk. rewrite walk_loop_complete; simpl; [|lia].
  by rewrite app_nil_r.
Qed.

(** ** What one visited node adds *)

Lemma elem_of_foldl_add {A} (f : A -> string) (l : list A) (acc : gset string) x :
  x ∈ foldl (fun acc a => acc ∪ {[ f a ]}) acc l
  <-> x ∈ acc \/ exists a, a ∈ l /\ x = f a.
Proof.
  revert acc. induction l as [|a l IH]; intros acc; simpl.
  - split; [auto | intros [?|(a & Ha & _)]; [done | by apply elem_of_nil in Ha]].
  - rewrite IH, elem_of_union, elem_of_singleton. split.
    + intros [[?| -> ]|(b & Hb & ->)]; eauto using list_elem_of_here, list_elem_of_further.
    + intros [?|(b & Hb & ->)]; [auto|].
      apply elem_of_cons in Hb as [ -> |Hb]; eauto.
Qed.

Lemma elem_of_visit acc n x :
  x ∈ visit acc n <-> x ∈ acc \/ x ∈ visit ∅ n.
Proof.
  destruct n as [names|[m|] names lv|a|children]; simpl.
  - rewrite !elem_of_foldl_add. set_solver.
  - destruct (String.eqb m ""); set_solver.
  - set_solver.
  - set_solver.
  - set_solver.
Qed.

Lemma elem_of_foldl_visit l acc x :
  x ∈ foldl visit acc l <-> x ∈ acc \/ exists n, n ∈ l /\ x ∈ visit ∅ n.
Proof.
  revert acc. induction l as [|n l IH]; intros acc; simpl.
  - split; [auto | intros [?|(n & Hn & _)]; [done | by apply elem_of_nil in Hn]].
  - rewrite IH, elem_of_visit. split.
    + intros [[?|?]|(k & Hk & ?)]; eauto using list_elem_of_here, list_elem_of_further.
    + intros [?|(k & Hk & ?)]; [auto|].
      apply elem_of_cons in Hk as [ -> |Hk]; eauto.
Qed.

(** the names of a tree are what its nodes add, one by one *)
Lemma elem_of_top_level_names tree x :
  x ∈ top_level_names tree <-> exists n, n ∈ subnodes tree /\ x ∈ visit ∅ n.
Proof.
  induction tree as [names|m names lv|a|children IH] using node_induction.
  - simpl. rewrite elem_of_list_to_set. split.
    + intros Hx. exists (Import names). split; [apply list_elem_of_here|].
      simpl. apply elem_of_foldl_add. right.
      apply list_elem_of_In, in_map_iff in Hx as (a & <- & Ha).
      exists a. by rewrite list_elem_of_In.
    + intros (n & Hn & Hx). apply elem_of_cons in Hn as [ -> |Hn].
      * simpl in Hx. apply elem_of_foldl_add in Hx as [Hx|(a & Ha & ->)];
          [by apply not_elem_of_empty in Hx|].
        apply list_elem_of_In, in_map_iff. exists a. by rewrite <- list_elem_of_In.
      * apply list_elem_of_In, in_map_iff in Hn as (a & <- & _).
        by apply not_elem_of_empty in Hx.
  - simpl. split.
    + intros Hx. exists (ImportFrom m names lv). split; [apply list_elem_of_here|].
      destruct m as [m|]; simpl; [|done].
      destruct (String.eqb m ""); set_solver.
    + intros (n & Hn & Hx). apply elem_of_cons in Hn as [ -> |Hn].
      * destruct m as [m|]; simpl in *; [|done].
        destruct (String.eqb m ""); set_solver.
      * apply list_elem_of_In, in_map_iff in Hn as (a & <- & _).
        by apply not_elem_of_empty in Hx.
  - simpl. split; [set_solver|].
    intros (n & Hn & Hx). apply list_elem_of_singleton in Hn as ->.
    by apply not_elem_of_empty in Hx.
  - simpl. rewrite elem_of_union_list. split.
    + intros (X & HX & Hx).
      apply list_elem_of_In, in_map_iff in HX as (c & <- & Hc).
      rewrite List.Forall_forall in IH. apply (IH c Hc) in Hx as (n & Hn & Hx).
      exists n. split; [|done]. apply list_elem_of_further.
      apply list_elem_of_In, in_flat_map. exists c.
      split; [done | by apply list_elem_of_In].
    + intros (n & Hn & Hx). apply elem_of_cons in Hn as [ -> |Hn];
        [by apply not_elem_of_empty in Hx|].
      apply list_elem_of_In, in_flat_map in Hn as (c & Hc & Hn).
      exists (top_level_names c). split.
      * apply list_elem_of_In, in_map_iff. eauto.
      * rewrite List.Forall_forall in IH. apply (IH c Hc).
        exists n. by rewrite list_elem_of_In.
Qed.

(** the loop over [ast.walk(tree)] computes the names of the tree *)
Lemma walk_visit_names tree : foldl visit ∅ (walk tree) = top_level_names tree.
Proof.
  apply set_eq. intros x.
  rewrite elem_of_foldl_visit, elem_of_top_level_names.
  setoid_rewrite (walk_complete tree). set_solver.
Qed.

Lemma add_log_nil s : add_log [] s = s.
Proof. destruct s; unfold add_log; simpl. by rewrite app_nil_r. Qed.


Lemma add_log_app l1 l2 s : add_log l2 (add_log l1 s) = add_log (l1 ++ l2) s.
Proof. unfold add_log; simpl. by rewrite app_assoc. Qed.

Lemma extract_parsed env file_path tree s :
  read_and_parse env file_path = Ok tree ->
  extract_imports_from_file env file_path s = (Ok (top_level_names tree), s).
Proof.
  intros Hparse. unfold extract_imports_from_file. run_monad.
  rewrite Hparse. simpl. by rewrite walk_visit_names.
Qed.

Lemma extract_skipped env file_path e s :
  read_and_parse env file_path = Raise e -> skipped e = true ->
  extract_imports_from_file env file_path s
  = (Ok ∅, add_log [skip_record file_path e] s).
Proof.
  intros Hparse Hskip. unfold extract_imports_from_file, skipped in *. run_monad.
  rewrite Hparse. simpl. by destruct (exn_cls e).
Qed.

Lemma extract_propagates env file_path e s :
  read_and_parse env file_path = Raise e -> skipped e = false ->
  extract_imports_from_file env file_path s = (Raise e, s).
Proof.
  intros Hparse Hskip. unfold extract_imports_from_file, skipped in *. run_monad.
  rewrite Hparse. simpl. by destruct (exn_cls e).
Qed.

(** ** First dotted segments *)

Lemma split_nonempty sep s : Str.split sep s <> [].
Proof.
  destruct s as [|c s]; simpl; [done|].
  destruct (Ascii.eqb c sep); [done|].
  by destruct (Str.split sep s).
Qed.

Lemma first_segment_prefix name :
  exists rest,
    name = first_segment name +:+ rest
    /\ (rest = "" \/ exists r, rest = "." +:+ r).
Proof.
  unfold first_segment. induction name as [|c name (rest & Hname & Hrest)]; simpl.
  - exists "". auto.
  - destruct (Ascii.eqb c ".") eqn:Hc; simpl.
    + apply Ascii.eqb_eq in Hc as ->. exists (String "." name). split; [done|].
      right. by exists name.
    + destruct (Str.split "." name) as [|seg segs] eqn:Hsplit;
        [by apply split_nonempty in Hsplit|].
      simpl in *. exists rest. split; [|done].
      change (String c seg +:+ rest) with (String c (seg +:+ rest)).
      by rewrite <- Hname.
Qed.

Lemma first_segment_no_dot name :
  ~ In "."%char (list_ascii_of_string (first_segment name)).
Proof.
  unfold first_segment. induction name as [|c name IH]; simpl; [tauto|].
  destruct (Ascii.eqb c ".") eqn:Hc; simpl; [tauto|].
  destruct (Str.split "." name) as [|seg segs] eqn:Hsplit;
    [by apply split_nonempty in Hsplit|].
  simpl in *. intros [->|Hin]; [|tauto].
  by rewrite Ascii.eqb_refl in Hc.
Qed.

Lemma elem_of_visit_empty n x :
  x ∈ visit ∅ n <->
  (exists names a, n = Import names /\ a ∈ names /\ x = first_segment (alias_name a))
  \/ (exists m names level,
        n = ImportFrom (Some m) names level /\ m <> "" /\ x = first_segment m).
Proof.
  destruct n as [names|[m|] names lv|a|children]; simpl.
  - rewrite elem_of_foldl_add. split.
    + intros [H|(a & Ha & ->)]; [by apply not_elem_of_empty in H|].
      left. eauto.
    + intros [(names' & a & [= <-] & Ha & ->)|(? & ? & ? & [=] & _)]. eauto.
  - destruct (String.eqb_spec m "") as [->|Hm].
    + split; [intros H; by apply not_elem_of_empty in H|].
      intros [(? & ? & [=] & _)|(m & ? & ? & [= <- _ _] & Hm & _)]. done.
    + rewrite elem_of_union, elem_of_singleton. split.
      * intros [H| ->]; [by apply not_elem_of_empty in H|].
        right. eauto 6.
      * intros [(? & ? & [=] & _)|(m' & ? & ? & [= <- _ _] & _ & ->)]. auto.
  - split; [intros H; by apply not_elem_of_empty in H|].
    intros [(? & ? & [=] & _)|(? & ? & ? & [=] & _)].
  - split; [intros H; by apply not_elem_of_empty in H|].
    intros [(? & ? & [=] & _)|(? & ? & ? & [=] & _)].
  - split; [intros H; by apply not_elem_of_empty in H|].
    intros [(? & ? & [=] & _)|(? & ? & ? & [=] & _)].
Qed.

Lemma top_level_names_forget_level tree :
  top_level_names (forget_level tree) = top_level_names tree.
Proof.
  induction tree as [names|m names lv|a|children IH] using node_induction;
    simpl; try done.
  f_equal. rewrite map_map. apply map_ext_in.
  rewrite List.Forall_forall in IH. auto.
Qed.

(** C4 (the extractor on a file that parses).  The extractor returns,
    without logging, the set of exactly these names: the first dotted
    segment of every name of every [import] statement of the tree, and the
    first dotted segment of the module of every [from ... import] that has
    a module; a statement without one adds nothing.  The first dotted
    segment of a name is the part before its first dot and holds no dot. *)
Theorem extract_imports_spec (env : Env) (file_path : string) (tree : node) (s : State) :
  read_and_parse env file_path = Ok tree ->
  exists imports,
    extract_imports_from_file env file_path s = (Ok imports, s)
    /\ imports = top_level_names tree
    /\ (forall x,
          x ∈ imports <->
          (exists names a,
             Import names ∈ subnodes tree /\ a ∈ names
             /\ x = first_segment (alias_name a))
          \/ (exists m names level,
                ImportFrom (Some m) names level ∈ subnodes tree /\ m <> ""
                /\ x = first_segment m))
    /\ (forall name,
          (exists rest,
             name = first_segment name +:+ rest
             /\ (rest = "" \/ exists r, rest = "." +:+ r))
          /\ ~ In "."%char (list_ascii_of_string (first_segment name))).
Proof.
  intros Hparse. exists (top_level_names tree).
  split; [by apply extract_parsed|]. split; [done|]. split.
  - intros x. rewrite elem_of_top_level_names. split.
    + intros (n & Hn & Hx). apply elem_of_visit_empty in Hx
        as [(names & a & -> & Ha & ->)|(m & names & lv & -> & Hm & ->)].
      * left. eauto.
      * right. eauto 6.
    + intros [(names & a & Hn & Ha & ->)|(m & names & lv & Hn & Hm & ->)].
      * exists (Import names). split; [done|].
        apply elem_of_visit_empty. left. eauto.
      * exists (ImportFrom (Some m) names lv). split; [done|].
        apply elem_of_visit_empty. right. eauto 6.
  - intros name. split; [apply first_segment_prefix | apply first_segment_no_dot].
Qed.

Lemma extract_imports_spec_witness :
  read_and_parse Sample.env "/proj/a.py" = Ok Sample.tree_a /\
  exists imports,
    extract_imports_from_file Sample.env "/proj/a.py" init_state
      = (Ok imports, init_state)
    /\ imports = top_level_names Sample.tree_a
    /\ imports = {[ "os"; "numpy"; "click" ]}.
Proof.
  split; [reflexivity|].
  destruct (extract_imports_spec Sample.env "/proj/a.py" Sample.tree_a init_state)
    as (imports & Hrun & Hnames & _); [reflexivity|].
  exists imports. split; [exact Hrun|]. split; [exact Hnames|].
  rewrite Hnames. apply set_eq. intros x. simpl. set_solver.
Defined.

(** C10 (a relative import that names a module).  The level of a
    [from ... import] plays no part: a statement with a module adds the
    first dotted segment of that module whatever its level, the result for
    a tree is the result for the same tree with every level set to zero,
    and the only [from ... import] that adds nothing is the one without a
    module. *)
Theorem relative_import_with_module (env : Env) (file_path : string) (tree : node)
    (s : State) (m : string) (names : list alias) (level : nat) :
  read_and_parse env file_path = Ok tree ->
  ImportFrom (Some m) names level ∈ subnodes tree ->
  m <> "" ->
  exists imports,
    extract_imports_from_file env file_path s = (Ok imports, s)
    /\ first_segment m ∈ imports
    /\ imports = top_level_names (forget_level tree)
    /\ (forall acc,
          visit acc (ImportFrom (Some m) names level) = acc ∪ {[ first_segment m ]}
          /\ visit acc (ImportFrom (Some m) names level)
             = visit acc (ImportFrom (Some m) names 0)
          /\ visit acc (ImportFrom None names level) = acc).
Proof.
  intros Hparse Hin Hm. exists (top_level_names tree).
  split; [by apply extract_parsed|]. split; [|split].
  - apply elem_of_top_level_names. exists (ImportFrom (Some m) names level).
    split; [done|]. apply elem_of_visit_empty. right. eauto 6.
  - by rewrite top_level_names_forget_level.
  - intros acc. simpl. destruct (String.eqb_spec m ""); done.
Qed.

Lemma relative_import_with_module_witness :
  read_and_parse Sample.env "/proj/pkg/b.py" = Ok Sample.tree_b /\
  ImportFrom (Some "utils.text") [MkAlias "wrap" None] 1 ∈ subnodes Sample.tree_b /\
  "utils.text" <> "" /\
  exists imports,
    extract_imports_from_file Sample.env "/proj/pkg/b.py" init_state
      = (Ok imports, init_state)
    /\ first_segment "utils.text" ∈ imports
    /\ first_segment "utils.text" = "utils".
Proof.
  assert (Hin : ImportFrom (Some "utils.text") [MkAlias "wrap" None] 1
                ∈ subnodes Sample.tree_b).
  { simpl. apply list_elem_of_further, list_elem_of_here. }
  split; [reflexivity|]. split; [exact Hin|]. split; [discriminate|].
  destruct (relative_import_with_module Sample.env "/proj/pkg/b.py" Sample.tree_b
              init_state "utils.text" [MkAlias "wrap" None] 1)
    as (imports & Hrun & Hmem & _); [reflexivity | exact Hin | discriminate |].
  exists imports. split; [exact Hrun|]. split; [exact Hmem | reflexivity].
Defined.

(** ** The directory scan *)

Lemma parsed_names_cons env f paths :
  parsed_names env (f :: paths)
  = match read_and_parse env f with
    | Ok tree => top_level_names tree
    | Raise _ => ∅
    end ∪ parsed_names env paths.
Proof. reflexivity. Qed.

Lemma parsed_names_app env l1 l2 :
  parsed_names env (l1 ++ l2) = parsed_names env l1 ∪ parsed_names env l2.
Proof. unfold parsed_names. by rewrite map_app, union_list_app_L. Qed.

Lemma elem_of_parsed_names env paths x :
  x ∈ parsed_names env paths <->
  exists f tree, f ∈ paths /\ read_and_parse env f = Ok tree
                 /\ x ∈ top_level_names tree.
Proof.
  induction paths as [|f paths IH].
  - unfold parsed_names. simpl. rewrite elem_of_empty. split; [done|].
    intros (f & ? & Hf & _). by apply elem_of_nil in Hf.
  - rewrite parsed_names_cons, elem_of_union, IH. split.
    + intros [Hx|(g & tree & Hg & Hparse & Hx)].
      * destruct (read_and_parse env f) as [tree|e] eqn:Hparse;
          [|by apply not_elem_of_empty in Hx].
        exists f, tree. split; [apply list_elem_of_here | done].
      * exists g, tree. split; [by apply list_elem_of_further | done].
    + intros (g & tree & Hg & Hparse & Hx).
      apply elem_of_cons in Hg as [ -> |Hg].
      * left. by rewrite Hparse.
      * right. eauto.
Qed.


Lemma logger_run lv msg s : logger lv msg s = (Ok tt, add_log [(lv, msg)] s).
Proof. reflexivity. Qed.

Section Scan.

Variable env : Env.

(** the files of one directory *)
Lemma scan_files root files acc s :
  let paths := map (os_path_join root) (List.filter (Str.endswith ".py") files) in
  (forall f e, f ∈ paths -> read_and_parse env f = Raise e -> skipped e = true) ->
  for_each files
    (fun acc file =>
       if Str.endswith ".py" file then
         let file_path := os_path_join root file in
         let* imports := extract_imports_from_file env file_path in
         ret (acc ∪ imports)
       else ret acc) acc s
  = (Ok (acc ∪ parsed_names env paths), add_log (skip_records env paths) s).
Proof.
  cbv zeta. unfold bind, ret.
  revert acc s. induction files as [|file files IH]; intros acc s Hall.
  - unfold parsed_names, skip_records. simpl.
    by rewrite add_log_nil, union_empty_r_L.
  - simpl in *.
    destruct (Str.endswith ".py" file) eqn:Hpy; simpl in *.
    + destruct (read_and_parse env (os_path_join root file)) as [tree|e] eqn:Hparse.
      * unfold bind. rewrite (extract_parsed _ _ _ _ Hparse).
        rewrite IH.
        -- rewrite parsed_names_cons, Hparse. simpl.
           by rewrite (assoc_L (∪)).
        -- intros f e' Hf. apply Hall. by apply list_elem_of_further.
      * assert (Hskip : skipped e = true).
        { apply (Hall (os_path_join root file) e); [apply list_elem_of_here | done]. }
        unfold bind. rewrite (extract_skipped _ _ _ _ Hparse Hskip).
        rewrite IH.
        -- rewrite parsed_names_cons, Hparse, add_log_app. simpl.
           by rewrite union_empty_r_L, union_empty_l_L.
        -- intros f e' Hf. apply Hall. by apply list_elem_of_further.
    + unfold bind. by apply IH.
Qed.

(** the directories of a walk *)
Lemma scan_walk (triples : list (string * list string * list string)) acc s :
  let paths :=
    flat_map (fun '(root, _, files) =>
                map (os_path_join root) (List.filter (Str.endswith ".py") files))
             triples in
  (forall f e, f ∈ paths -> read_and_parse env f = Raise e -> skipped e = true) ->
  for_each triples
    (fun acc '(root, _, files) =>
       for_each files
         (fun acc file =>
            if Str.endswith ".py" file then
              let file_path := os_path_join root file in
              let* imports := extract_imports_from_file env file_path in
              ret (acc ∪ imports)
            else ret acc) acc) acc s
  = (Ok (acc ∪ parsed_names env paths), add_log (skip_records env paths) s).
Proof.
  cbv zeta. unfold bind, ret.
  revert acc s. induction triples as [|[[root dirs] files] triples IH];
    intros acc s Hall.
  - unfold parsed_names, skip_records. simpl.
    by rewrite add_log_nil, union_empty_r_L.
  - simpl in *.
    pose proof (scan_files root files acc s) as Hfiles.
    cbv zeta in Hfiles. unfold bind, ret in Hfiles. unfold bind. rewrite Hfiles.
    + rewrite IH.
      * rewrite parsed_names_app, add_log_app. unfold skip_records.
        by rewrite flat_map_app, (assoc_L (∪)).
      * intros f e Hf. apply Hall. apply elem_of_app. by right.
    + intros f e Hf. apply Hall. apply elem_of_app. by left.
Qed.

Lemma scan_directory_run path s :
  (forall f e, f ∈ source_files env path -> read_and_parse env f = Raise e ->
               skipped e = true) ->
  let all_imports := parsed_names env (source_files env path) in
  scan_directory env path s
  = (Ok all_imports,
     add_log ([scan_started path] ++ skip_records env (source_files env path)
              ++ [scan_finished all_imports]) s).
Proof.
  intros Hall all_imports. unfold scan_directory.
  pose proof (scan_walk (os_walk env path) ∅ (add_log [scan_started path] s) Hall)
    as Hwalk.
  cbv zeta in Hwalk. fold (source_files env path) in Hwalk.
  rewrite union_empty_l_L in Hwalk. fold all_imports in Hwalk.
  unfold scan_started in Hwalk. unfold bind, ret in Hwalk |- *.
  rewrite logger_run.
  match goal with
  | |- (let (r, s') := ?walked in _) = _ =>
      replace walked with
        (Ok all_imports : result (gset string),
         add_log (skip_records env (source_files env path))
           (add_log [(INFO, "📂 Scanning directory: " +:+ path)] s))
        by (symmetry; exact Hwalk)
  end.
  rewrite logger_run. by rewrite !add_log_app.
Qed.

End Scan.



(** ** The manifest emitter *)

Lemma append_assoc (a b c : string) : (a +:+ b) +:+ c = a +:+ (b +:+ c).
Proof.
  induction a as [|x a IH]; [done|].
  change (String x ((a +:+ b) +:+ c) = String x (a +:+ (b +:+ c))).
  by rewrite IH.
Qed.

Lemma append_empty_r (a : string) : a +:+ "" = a.
Proof.
  induction a as [|x a IH]; [done|].
  change (String x (a +:+ "") = String x a). by rewrite IH.
Qed.

Section Manifest.

Variable env : Env.

(** the loop of [save_requirements] appends the line of each package *)
Lemma write_loop pkgs s text :
  files s !! "requirements.txt" = Some text ->
  exists s',
    for_each pkgs
      (fun _ pkg =>
         try_except
           (let* version := call (metadata_version env pkg) in
            write "requirements.txt" (pkg +:+ "==" +:+ version +:+ newline))
           (fun e => Some
              (logger WARNING
                 ("⚠️ Could not get version for '" +:+ pkg +:+ "': " +:+ exn_str e) ;;
               write "requirements.txt" (pkg +:+ newline))))
      tt s
    = (Ok tt, s')
    /\ files s' !! "requirements.txt" = Some (text +:+ manifest env pkgs).
Proof.
  revert s text. induction pkgs as [|pkg pkgs IH]; intros s text Hfile; simpl.
  - exists s. split; [done|]. by rewrite append_empty_r.
  - unfold bind at 1, try_except at 1, bind at 1, call at 1.
    unfold manifest_line.
    destruct (metadata_version env pkg) as [version|e]; simpl.
    + edestruct IH as (s' & -> & Hfile'); [|eexists; split; [reflexivity|]].
      * simpl. rewrite lookup_insert_eq. reflexivity.
      * rewrite Hfile', Hfile. simpl. by rewrite !append_assoc.
    + edestruct IH as (s' & -> & Hfile'); [|eexists; split; [reflexivity|]].
      * simpl. rewrite lookup_insert_eq. reflexivity.
      * rewrite Hfile', Hfile. simpl. by rewrite !append_assoc.
Qed.




Lemma save_requirements_run third_party s :
  open_for_writing env "requirements.txt" = Ok tt ->
  exists s',
    save_requirements env third_party s = (Ok tt, s')
    /\ files s' !! "requirements.txt" = Some (manifest env (sorted third_party)).
Proof.
  intros Hopen. unfold save_requirements.
  unfold bind at 1. rewrite logger_run.
  unfold try_except at 1, bind at 1, open_w, bind at 1, call at 1.
  rewrite Hopen.
  edestruct (write_loop (sorted third_party)) as (s1 & Hloop & Hfile);
    [|unfold bind at 1; rewrite Hloop].
  - simpl. rewrite lookup_insert_eq. reflexivity.
  - rewrite logger_run. eexists; split; [reflexivity|].
    simpl. exact Hfile.
Qed.

End Manifest.



(** ** The module at work in the sample environment *)

Example lower_example : Str.lower "NumPy" = "numpy".
Proof. reflexivity. Qed.

Example split_example : Str.split "." "os.path.join" = ["os"; "path"; "join"].
Proof. reflexivity. Qed.

Example first_segment_example : first_segment "numpy.linalg" = "numpy".
Proof. reflexivity. Qed.

Example endswith_example :
  Str.endswith ".py" "cli.py" = true /\ Str.endswith ".py" "cli.pyc" = false.
Proof. split; reflexivity. Qed.

Example os_path_join_example : os_path_join "/proj/pkg" "b.py" = "/proj/pkg/b.py".
Proof. reflexivity. Qed.

(** the walk is breadth first: the two statements of the body come before
    the statement nested in the first of them *)
Example walk_example :
  walk (Other [ Other [ Import [MkAlias "a" None] ]; ImportFrom (Some "b") [] 0 ])
  = [ Other [ Other [ Import [MkAlias "a" None] ]; ImportFrom (Some "b") [] 0 ];
      Other [ Import [MkAlias "a" None] ];
      ImportFrom (Some "b") [] 0;
      Import [MkAlias "a" None];
      Alias (MkAlias "a" None) ].
Proof. reflexivity. Qed.

(** [import os], [import requests] and [from . import utils] *)
Example extract_example :
  foldl visit ∅
    (walk (Other [ Import [MkAlias "os" None];
                   Import [MkAlias "requests" None];
                   ImportFrom None [MkAlias "utils" None] 1 ]))
  = {[ "os"; "requests" ]}.
Proof. vm_compute. reflexivity. Qed.

(** a scan over a tree with a file that does not parse *)
Example scan_example :
  exists s',
    scan_directory Sample.env "/proj" init_state
      = (Ok {[ "os"; "numpy"; "click"; "utils"; "requests" ]}, s')
    /\ log s'
       = [ (INFO, "📂 Scanning directory: /proj");
           (ERROR, "Skipping /proj/bad.py: invalid syntax (bad.py, line 1)");
           (DEBUG, "🔍 Total unique imports found: 5") ].
Proof. eexists. split; vm_compute; reflexivity. Qed.

(** an empty directory *)
Example scan_empty_example :
  fst (scan_directory Sample.env "/nowhere" init_state) = Ok ∅.
Proof. vm_compute. reflexivity. Qed.

Example classify_example :
  fst (classify_imports Sample.env
         {[ "os"; "numpy"; "NumPy"; "OS"; "utils"; "pkg_resources"; "broken" ]}
         init_state)
  = Ok ({[ "os" ]}, {[ "numpy"; "NumPy"; "pkg_resources" ]},
        {[ "OS"; "utils"; "broken" ]}).
Proof. vm_compute. reflexivity. Qed.

Example save_requirements_example :
  files (snd (save_requirements Sample.env {[ "numpy"; "yaml"; "click" ]} init_state))
    !! "requirements.txt"
  = Some ("click==8.1.3" +:+ newline +:+ "numpy==1.26.0" +:+ newline
          +:+ "yaml" +:+ newline).
Proof. vm_compute. reflexivity. Qed.

(** ** What every run preserves *)

Lemma preserves_ret {A} (I : State -> Prop) (a : A) : preserves I (ret a).
Proof. intros s r s' HI [= <- <-]. exact HI. Qed.

Lemma preserves_call {A} (I : State -> Prop) (r : result A) : preserves I (call r).
Proof. intros s r' s' HI [= <- <-]. exact HI. Qed.

Lemma preserves_bind {A B} (I : State -> Prop) (m : M A) (k : A -> M B) :
  preserves I m -> (forall a, preserves I (k a)) -> preserves I (bind m k).
Proof.
  intros Hm Hk s r s' HI Hrun. unfold bind in Hrun.
  destruct (m s) as [[a|e] s1] eqn:Hms.
  - apply (Hk a s1 r s'); [|done]. by apply (Hm s (Ok a) s1).
  - injection Hrun as <- <-. by apply (Hm s (Raise e) s1).
Qed.

Lemma preserves_try_except {A} (I : State -> Prop) (body : M A)
    (handler : exn -> option (M A)) :
  preserves I body ->
  (forall e h, handler e = Some h -> preserves I h) ->
  preserves I (try_except body handler).
Proof.
  intros Hbody Hh s r s' HI Hrun. unfold try_except in Hrun.
  destruct (body s) as [[a|e] s1] eqn:Hbs.
  - injection Hrun as <- <-. by apply (Hbody s (Ok a) s1).
  - assert (I s1) by (by apply (Hbody s (Raise e) s1)).
    destruct (handler e) as [h|] eqn:Hhe.
    + by apply (Hh e h Hhe s1 r s').
    + by injection Hrun as <- <-.
Qed.

Lemma preserves_for_each {A B} (I : State -> Prop) (xs : list A)
    (body : B -> A -> M B) (acc : B) :
  (forall acc x, preserves I (body acc x)) -> preserves I (for_each xs body acc).
Proof.
  intros Hbody. revert acc. induction xs as [|x xs IH]; intros acc; simpl.
  - apply preserves_ret.
  - apply preserves_bind; auto.
Qed.

Lemma preserves_logger lv msg : preserves cache_wf (logger lv msg).
Proof. intros s r s' HI [= <- <-]. exact HI. Qed.

Lemma cache_lookup_Some_elem key v c :
  cache_lookup key c = Some v -> (key, v) ∈ c.
Proof.
  unfold cache_lookup. destruct (List.find _ c) as [[k w]|] eqn:Hf; [|done].
  intros [= <-]. apply List.find_some in Hf as [Hin Hk]. simpl in Hk.
  apply String.eqb_eq in Hk as ->. by apply list_elem_of_In.
Qed.

Lemma cache_lookup_None_keys key c :
  cache_lookup key c = None -> key ∉ map fst c.
Proof.
  unfold cache_lookup. destruct (List.find _ c) as [[k w]|] eqn:Hf; [done|].
  intros _ Hin. apply list_elem_of_In, in_map_iff in Hin as ([k v] & Hk & Hin).
  simpl in Hk. subst k.
  apply (List.find_none _ _ Hf) in Hin. simpl in Hin.
  by rewrite String.eqb_refl in Hin.
Qed.

Lemma cache_remove_keys key c : key ∉ map fst (cache_remove key c).
Proof.
  intros Hin. apply list_elem_of_In, in_map_iff in Hin as ([k v] & Hk & Hin).
  simpl in Hk. subst k. apply List.filter_In in Hin as [_ Hneq].
  simpl in Hneq. by rewrite String.eqb_refl in Hneq.
Qed.

Lemma cache_remove_NoDup key c :
  NoDup (map fst c) -> NoDup (map fst (cache_remove key c)).
Proof.
  induction c as [|[k v] c IH]; simpl; [done|].
  intros [Hk Hc]%NoDup_cons. destruct (negb (k =? key)%string); simpl; auto.
  apply NoDup_cons. split; [|auto].
  intros Hin. apply Hk.
  apply list_elem_of_In, in_map_iff in Hin as (kv & Hkv & Hin).
  apply List.filter_In in Hin as [Hin _].
  apply list_elem_of_In, in_map_iff. eauto.
Qed.

Lemma cache_remove_length key v c :
  (key, v) ∈ c -> S (length (cache_remove key c)) <= length c.
Proof.
  induction c as [|[k w] c IH]; simpl.
  - intros H. by apply elem_of_nil in H.
  - intros [[= <- <-]|Hin]%elem_of_cons.
    + rewrite String.eqb_refl. simpl.
      pose proof (List.filter_length_le
                    (fun kv => negb (String.eqb (fst kv) key)) c). unfold cache_remove. lia.
    + specialize (IH Hin). destruct (negb (k =? key)%string); simpl; lia.
Qed.

Lemma elem_of_take_list {A} n (l : list A) x : x ∈ take n l -> x ∈ l.
Proof.
  revert n. induction l as [|y l IH]; intros [|n]; simpl; intros Hx;
    try (by apply elem_of_nil in Hx).
  apply elem_of_cons in Hx as [ -> |Hx]; [apply list_elem_of_here|].
  apply list_elem_of_further. eauto.
Qed.

Lemma take_keys_NoDup n (c : list (string * bool)) :
  NoDup (map fst c) -> NoDup (map fst (take n c)).
Proof.
  revert n. induction c as [|[k v] c IH]; intros [|n]; simpl; try done.
  - intros _. constructor.
  - intros [Hk Hc]%NoDup_cons. apply NoDup_cons. split; [|auto].
    intros Hin. apply Hk.
    apply list_elem_of_In, in_map_iff in Hin as (kv & Hkv & Hin).
    apply list_elem_of_In, in_map_iff. exists kv. split; [done|].
    apply list_elem_of_In. eapply elem_of_take_list. by apply list_elem_of_In.
Qed.

Lemma is_stdlib_only_logs env name s r s' :
  is_stdlib env name s = (r, s') -> only_logs s s'.
Proof.
  intros Hrun. destruct (is_stdlib_run env name s) as (s1 & Hs1 & Hlogs).
  rewrite Hs1 in Hrun. by injection Hrun as <- <-.
Qed.

Lemma preserves_is_stdlib env name : preserves cache_wf (is_stdlib env name).
Proof.
  intros s r s' HI Hrun. apply is_stdlib_only_logs in Hrun as (Hc & _).
  unfold cache_wf in *. by rewrite Hc.
Qed.

Lemma preserves_is_installed_package env name :
  preserves cache_wf (is_installed_package env name).
Proof.
  intros s r s' [Hlen Hnd]. unfold is_installed_package, lru_cache.
  destruct (cache_lookup name (installed_cache s)) as [v|] eqn:Hlook.
  - intros [= <- <-]. unfold cache_wf; simpl. split.
    + apply cache_lookup_Some_elem in Hlook.
      pose proof (cache_remove_length _ _ _ Hlook). lia.
    + apply NoDup_cons. split; [apply cache_remove_keys|].
      by apply cache_remove_NoDup.
  - destruct (is_installed_package_body_run env name s) as (s1 & -> & Hc & _).
    intros [= <- <-]. unfold cache_wf. simpl. rewrite Hc. split.
    + rewrite length_take. lia.
    + apply (take_keys_NoDup 128 ((name, installed_answer env name) :: installed_cache s)).
      simpl. apply NoDup_cons.
      split; [by apply cache_lookup_None_keys | done].
Qed.

Lemma preserves_is_local_module env name :
  preserves cache_wf (is_local_module env name).
Proof.
  unfold is_local_module. apply preserves_bind; [apply preserves_is_stdlib|].
  intros std. destruct (negb std); [|apply preserves_ret].
  apply preserves_bind; [apply preserves_is_installed_package|].
  intros inst. apply preserves_ret.
Qed.

Lemma preserves_classify_one env acc module :
  preserves cache_wf (classify_one env acc module).
Proof.
  destruct acc as [[stdlib third_party] local]. unfold classify_one.
  apply preserves_bind; [apply preserves_is_stdlib|].
  intros std. destruct std; [apply preserves_ret|].
  apply preserves_bind; [apply preserves_is_installed_package|].
  intros inst. destruct inst; [apply preserves_ret|].
  apply preserves_bind; [apply preserves_is_local_module|].
  intros loc. destruct loc; apply preserves_ret.
Qed.

Lemma preserves_classify_imports env imports :
  preserves cache_wf (classify_imports env imports).
Proof.
  unfold classify_imports, classify_loop.
  apply preserves_for_each. intros acc x. apply preserves_classify_one.
Qed.

(** ** Loops, flattened *)

Lemma for_each_app {A B} (xs ys : list A) (body : B -> A -> M B) (acc : B) s :
  for_each (xs ++ ys) body acc s
  = bind (for_each xs body acc) (for_each ys body) s.
Proof.
  unfold bind. revert acc s. induction xs as [|x xs IH]; intros acc s; simpl.
  - reflexivity.
  - unfold bind. destruct (body acc x s) as [[a|e] s1]; [|done].
    apply IH.
Qed.

Lemma bind_cong {A B} (m1 m2 : M A) (k1 k2 : A -> M B) s :
  m1 s = m2 s -> (forall a s1, k1 a s1 = k2 a s1) ->
  bind m1 k1 s = bind m2 k2 s.
Proof.
  intros Hm Hk. unfold bind. rewrite Hm.
  destruct (m2 s) as [[a|e] s1]; [apply Hk | done].
Qed.

Lemma scan_files_flat env root files acc s :
  for_each files
    (fun acc file =>
       if Str.endswith ".py" file then
         let file_path := os_path_join root file in
         let* imports := extract_imports_from_file env file_path in
         ret (acc ∪ imports)
       else ret acc) acc s
  = for_each (map (os_path_join root) (List.filter (Str.endswith ".py") files))
      (scan_step env) acc s.
Proof.
  revert acc s. induction files as [|file files IH]; intros acc s; simpl; [done|].
  destruct (Str.endswith ".py" file); simpl.
  - unfold scan_step at 1. unfold bind.
    destruct (extract_imports_from_file env (os_path_join root file) s)
      as [[a|e] s1]; [|done].
    unfold ret at 1 3. apply IH.
  - unfold bind, ret at 1. apply IH.
Qed.

Lemma scan_walk_flat env (triples : list (string * list string * list string)) acc s :
  for_each triples
    (fun acc '(root, _, files) =>
       for_each files
         (fun acc file =>
            if Str.endswith ".py" file then
              let file_path := os_path_join root file in
              let* imports := extract_imports_from_file env file_path in
              ret (acc ∪ imports)
            else ret acc) acc) acc s
  = for_each
      (flat_map (fun '(root, _, files) =>
                   map (os_path_join root) (List.filter (Str.endswith ".py") files))
                triples)
      (scan_step env) acc s.
Proof.
  revert acc s. induction triples as [|[[root dirs] files] triples IH];
    intros acc s; simpl; [done|].
  rewrite for_each_app. apply bind_cong; [apply scan_files_flat|].
  intros a s1. apply IH.
Qed.

(** [scan_directory] as one loop over the source files *)
Lemma scan_directory_flat env path s :
  scan_directory env path s
  = (logger INFO ("📂 Scanning directory: " +:+ path) ;;
     let* all_imports := for_each (source_files env path) (scan_step env) ∅ in
     logger DEBUG ("🔍 Total unique imports found: " +:+ pretty (size all_imports)) ;;
     ret all_imports) s.
Proof.
  unfold scan_directory, bind. rewrite logger_run.
  match goal with
  | |- (let (r, s') := ?walked in _) = _ =>
      replace walked with
        (for_each (source_files env path) (scan_step env) (∅ : gset string)
           (add_log [(INFO, "📂 Scanning directory: " +:+ path)] s))
        by (symmetry; apply scan_walk_flat)
  end.
  reflexivity.
Qed.

Lemma extract_ext env1 env2 file_path s :
  read_and_parse env1 file_path = read_and_parse env2 file_path ->
  extract_imports_from_file env1 file_path s
  = extract_imports_from_file env2 file_path s.
Proof.
  intros Heq. unfold extract_imports_from_file. run_monad. by rewrite Heq.
Qed.

Lemma scan_loop_ext env1 env2 paths acc s :
  (forall f, f ∈ paths -> read_and_parse env1 f = read_and_parse env2 f) ->
  for_each paths (scan_step env1) acc s = for_each paths (scan_step env2) acc s.
Proof.
  revert acc s. induction paths as [|f paths IH]; intros acc s Hagree; simpl;
    [done|].
  unfold bind, scan_step at 1 3. unfold bind.
  rewrite (extract_ext env1 env2 f s) by (apply Hagree, list_elem_of_here).
  destruct (extract_imports_from_file env2 f s) as [[a|e] s1]; [|done].
  unfold ret at 1 2. apply IH. intros g Hg. apply Hagree. by apply list_elem_of_further.
Qed.

(** the loop up to the first file whose exception is not caught *)
Lemma scan_loop_aborts env pre f post e acc s :
  (forall g e', g ∈ pre -> read_and_parse env g = Raise e' -> skipped e' = true) ->
  read_and_parse env f = Raise e -> skipped e = false ->
  for_each (pre ++ f :: post) (scan_step env) acc s
  = (Raise e, add_log (skip_records env pre) s).
Proof.
  revert acc s. induction pre as [|g pre IH]; intros acc s Hpre Hf He; simpl.
  - unfold bind, scan_step, bind. rewrite (extract_propagates _ _ _ _ Hf He).
    unfold skip_records. simpl. by rewrite add_log_nil.
  - unfold bind at 1. unfold scan_step at 1. unfold bind at 1.
    destruct (read_and_parse env g) as [tree|e'] eqn:Hg.
    + rewrite (extract_parsed _ _ _ _ Hg). unfold ret at 1.
      rewrite IH; [|intros; eapply Hpre; [by apply list_elem_of_further|done]|done..].
      unfold skip_records. simpl. by rewrite ?Hg.
    + assert (skipped e' = true) as Hskip
        by (apply (Hpre g e'); [apply list_elem_of_here | done]).
      rewrite (extract_skipped _ _ _ _ Hg Hskip). unfold ret at 1.
      rewrite IH; [|intros; eapply Hpre; [by apply list_elem_of_further|done]|done..].
      unfold skip_records. simpl. rewrite ?Hg. by rewrite add_log_app.
Qed.

(** a list with an element that has a decidable property splits at the
    first such element *)
Lemma first_such {A} (P : A -> bool) (l : list A) x :
  x ∈ l -> P x = true ->
  exists pre y post,
    l = pre ++ y :: post /\ P y = true /\ forall z, z ∈ pre -> P z = false.
Proof.
  induction l as [|a l IH]; intros Hx HP; [by apply elem_of_nil in Hx|].
  destruct (P a) eqn:Ha.
  - exists [], a, l. split; [done|]. split; [done|].
    intros z Hz. by apply elem_of_nil in Hz.
  - apply elem_of_cons in Hx as [ -> |Hx]; [congruence|].
    destruct (IH Hx HP) as (pre & y & post & -> & Hy & Hpre).
    exists (a :: pre), y, post. split; [done|]. split; [done|].
    intros z [ -> |Hz]%elem_of_cons; auto.
Qed.

(** the scan up to the first file whose exception is not caught *)
Lemma scan_directory_aborts env path s f e :
  f ∈ source_files env path ->
  read_and_parse env f = Raise e ->
  skipped e = false ->
  exists e' pre,
    scan_directory env path s
    = (Raise e',
       add_log (skip_records env pre)
         (add_log [(INFO, "📂 Scanning directory: " +:+ path)] s))
    /\ skipped e' = false.
Proof.
  intros Hf Hparse Hskip.
  pose (uncaught := fun g => match read_and_parse env g with
                             | Ok _ => false
                             | Raise e' => negb (skipped e')
                             end).
  destruct (first_such uncaught (source_files env path) f Hf)
    as (pre & g & post & Hsplit & Hg & Hpre).
  { unfold uncaught. by rewrite Hparse, Hskip. }
  unfold uncaught in Hg.
  destruct (read_and_parse env g) as [tree|e'] eqn:Hparse'; [done|].
  apply negb_true_iff in Hg.
  exists e', pre. split; [|exact Hg].
  rewrite scan_directory_flat. unfold bind at 1. rewrite logger_run.
  unfold bind at 1. rewrite Hsplit.
  rewrite (scan_loop_aborts env pre g post e'); [done| |done..].
  intros h e'' Hh Hraise. specialize (Hpre h Hh). unfold uncaught in Hpre.
  rewrite Hraise in Hpre. by apply negb_false_iff in Hpre.
Qed.

(** ** Frames *)

Lemma preserves_logger_blind (I : State -> Prop) lv msg :
  log_blind I -> preserves I (logger lv msg).
Proof. intros Hblind s r s' HI [= <- <-]. by apply (Hblind s [(lv, msg)]). Qed.


Lemma same_but_manifest_blind s0 : log_blind (same_but_manifest s0).
Proof. intros s entries H. exact H. Qed.



Lemma preserves_write_manifest s0 text :
  preserves (same_but_manifest s0) (write "requirements.txt" text).
Proof.
  intros s r s' [Hc Hf] [= <- <-]. split; [done|]. simpl.
  intros path Hpath. rewrite lookup_insert_ne by done. auto.
Qed.

Lemma preserves_save_requirements env third_party s0 :
  preserves (same_but_manifest s0) (save_requirements env third_party).
Proof.
  pose proof (same_but_manifest_blind s0) as Hblind.
  unfold save_requirements.
  apply preserves_bind; [by apply preserves_logger_blind|]. intros _.
  apply preserves_try_except.
  - apply preserves_bind.
    + unfold open_w. apply preserves_bind; [apply preserves_call|]. intros _.
      intros s r s' [Hc Hf] [= <- <-]. split; [done|]. simpl.
      intros path Hpath. rewrite lookup_insert_ne by done. auto.
    + intros _. apply preserves_bind; [|intros; by apply preserves_logger_blind].
      apply preserves_for_each. intros _ pkg.
      apply preserves_try_except.
      * apply preserves_bind; [apply preserves_call|].
        intros version. apply preserves_write_manifest.
      * intros e h [= <-].
        apply preserves_bind; [by apply preserves_logger_blind|].
        intros _. apply preserves_write_manifest.
  - intros e h [= <-]. by apply preserves_logger_blind.
Qed.

Lemma same_but_manifest_refl s : same_but_manifest s s.
Proof. split; auto. Qed.


Lemma save_requirements_total env third_party s :
  exists s', save_requirements env third_party s = (Ok tt, s').
Proof.
  destruct (open_for_writing env "requirements.txt") as [[]|e] eqn:Hopen.
  - destruct (save_requirements_run env third_party s Hopen) as (s' & Hrun & _).
    eauto.
  - eexists. unfold save_requirements. unfold bind at 1. rewrite logger_run.
    unfold try_except at 1, bind at 1, open_w, bind at 1, call at 1.
    rewrite Hopen. reflexivity.
Qed.

Lemma save_requirements_open_fails env third_party s e :
  open_for_writing env "requirements.txt" = Raise e ->
  save_requirements env third_party s
  = (Ok tt, add_log [save_started; save_failed e] s).
Proof.
  intros Hopen. unfold save_requirements. unfold bind at 1. rewrite logger_run.
  unfold try_except at 1, bind at 1, open_w, bind at 1, call at 1.
  rewrite Hopen. rewrite logger_run. by rewrite add_log_app.
Qed.

(** ** Further properties of the oracles and the classifier *)

(** X1 (the cache stays in shape).  A call of [is_installed_package] and a
    whole run of [classify_imports] leave the memoisation cache with at
    most 128 entries and at most one entry per name, whatever they
    return. *)
Theorem lru_cache_stays_bounded (env : Env) (name : string) (imports : gset string)
    (s : State) :
  cache_wf s ->
  cache_wf (snd (is_installed_package env name s))
  /\ cache_wf (snd (classify_imports env imports s)).
Proof.
  intros Hwf. split.
  - destruct (is_installed_package env name s) as [r s'] eqn:Hrun.
    by apply (preserves_is_installed_package env name s r s').
  - destruct (classify_imports env imports s) as [r s'] eqn:Hrun.
    by apply (preserves_classify_imports env imports s r s').
Qed.

Lemma lru_cache_stays_bounded_witness :
  cache_wf init_state /\
  cache_wf (snd (is_installed_package Sample.env "numpy" init_state))
  /\ cache_wf (snd (classify_imports Sample.env {[ "os"; "numpy" ]} init_state)).
Proof.
  assert (Hwf : cache_wf init_state) by (split; [simpl; lia | constructor]).
  split; [exact Hwf|].
  apply (lru_cache_stays_bounded Sample.env "numpy" {[ "os"; "numpy" ]} init_state Hwf).
Defined.

(** X2 (memoisation).  Asking [is_installed_package] again about the name
    it has just answered gives the same answer from the cache: nothing is
    logged the second time, not even the warning of an unexpected lookup
    error, and no file is touched. *)
Theorem is_installed_package_memoised (env : Env) (name : string) (b : bool)
    (s s1 : State) :
  is_installed_package env name s = (Ok b, s1) ->
  exists s2,
    is_installed_package env name s1 = (Ok b, s2)
    /\ log s2 = log s1 /\ files s2 = files s1.
Proof.
  unfold is_installed_package, lru_cache.
  assert (Hhit : forall c, cache_lookup name ((name, b) :: c) = Some b).
  { intros c. unfold cache_lookup. simpl. by rewrite String.eqb_refl. }
  destruct (cache_lookup name (installed_cache s)) as [v|] eqn:Hlook.
  - intros [= <- <-]. simpl. rewrite Hhit. eauto.
  - destruct (is_installed_package_body env name s) as [[v|e] s'] eqn:Hbody;
      [|done].
    intros [= <- <-]. simpl. rewrite Hhit. eauto.
Qed.

Lemma is_installed_package_memoised_witness :
  is_installed_package Sample.env "broken" init_state
    = (Ok false,
       {| log := [installed_warning "broken" (MkExn OtherException "metadata unreadable")];
          installed_cache := [("broken", false)];
          files := ∅ |}) /\
  exists s2,
    is_installed_package Sample.env "broken"
      {| log := [installed_warning "broken" (MkExn OtherException "metadata unreadable")];
         installed_cache := [("broken", false)];
         files := ∅ |}
    = (Ok false, s2)
    /\ log s2
       = [installed_warning "broken" (MkExn OtherException "metadata unreadable")]
    /\ files s2 = ∅.
Proof.
  assert (Hrun : is_installed_package Sample.env "broken" init_state
            = (Ok false,
               {| log := [installed_warning "broken"
                            (MkExn OtherException "metadata unreadable")];
                  installed_cache := [("broken", false)];
                  files := ∅ |})) by (vm_compute; reflexivity).
  split; [exact Hrun|].
  apply (is_installed_package_memoised Sample.env "broken" false init_state _ Hrun).
Defined.

(** X3 (no table for the running version).  When [stdlib_list] raises for
    the version of the interpreter, [is_stdlib] returns false for every
    name and logs one warning per call; [classify_imports] then puts no
    name in the stdlib set and splits the input between third-party and
    local. *)
Theorem stdlib_table_unavailable (env : Env) (e : exn) (name : string)
    (imports : gset string) (s : State) :
  stdlib_list env (version_str env) = Raise e ->
  cache_ok env s ->
  is_stdlib env name s = (Ok false, add_log [stdlib_warning name e] s)
  /\ exists third_party local s',
       classify_imports env imports s = (Ok (∅, third_party, local), s')
       /\ third_party ∪ local = imports
       /\ third_party ## local.
Proof.
  intros Htable Hok. split.
  - unfold is_stdlib. run_monad. by rewrite Htable.
  - destruct (classify_imports_run env imports s Hok)
      as ([[stdlib third_party] local] & s' & Hrun & _ & Hsets).
    pose proof (Hsets Stdlib) as Hs.
    pose proof (Hsets ThirdParty) as Ht.
    pose proof (Hsets Local) as Hl. simpl in Hs, Ht, Hl.
    assert (Hfm : forall x, first_match env x <> Stdlib).
    { intros x. unfold first_match, stdlib_answer. rewrite Htable.
      by destruct (installed_answer env x). }
    assert (stdlib = ∅) as ->.
    { apply set_eq. intros x. rewrite Hs, elem_of_empty. naive_solver. }
    exists third_party, local, s'. split; [exact Hrun|]. split.
    + apply set_eq. intros x. rewrite elem_of_union, Ht, Hl.
      specialize (Hfm x). destruct (first_match env x); naive_solver.
    + intros x [_ H1]%Ht [_ H2]%Hl. congruence.
Qed.

Lemma stdlib_table_unavailable_witness :
  stdlib_list Variants.unsupported_python (version_str Variants.unsupported_python)
    = Raise (MkExn OtherException "unsupported version") /\
  cache_ok Variants.unsupported_python init_state /\
  is_stdlib Variants.unsupported_python "os" init_state
    = (Ok false,
       add_log [stdlib_warning "os" (MkExn OtherException "unsupported version")]
         init_state)
  /\ exists third_party local s',
       classify_imports Variants.unsupported_python {[ "os"; "numpy" ]} init_state
         = (Ok (∅, third_party, local), s')
       /\ third_party ∪ local = {[ "os"; "numpy" ]}
       /\ third_party ## local.
Proof.
  split; [reflexivity|]. split; [constructor|].
  apply (stdlib_table_unavailable Variants.unsupported_python
           (MkExn OtherException "unsupported version") "os" {[ "os"; "numpy" ]}
           init_state); [reflexivity | constructor].
Defined.

(** X4 (the result does not depend on the state).  From any two states
    whose caches are right, and again from the state a run leaves behind,
    [classify_imports] returns the same three sets for the same input:
    what the cache and the log hold changes nothing. *)
Theorem classification_ignores_state (env : Env) (imports : gset string)
    (s1 s2 : State) :
  cache_ok env s1 -> cache_ok env s2 ->
  exists r s1' s1'' s2',
    classify_imports env imports s1 = (Ok r, s1')
    /\ classify_imports env imports s1' = (Ok r, s1'')
    /\ classify_imports env imports s2 = (Ok r, s2').
Proof.
  intros Hok1 Hok2.
  destruct (classify_imports_run env imports s1 Hok1)
    as ([[a1 b1] c1] & s1' & Hrun1 & Hkeep & Hsets1).
  destruct (classify_imports_run env imports s1') as ([[a2 b2] c2] & s1'' & Hrun2 & _ & Hsets2);
    [apply Hkeep|].
  destruct (classify_imports_run env imports s2 Hok2)
    as ([[a3 b3] c3] & s2' & Hrun3 & _ & Hsets3).
  assert (Heq : forall (r r' : gset string * gset string * gset string),
            (forall c x, x ∈ set_of c r <-> x ∈ imports /\ first_match env x = c) ->
            (forall c x, x ∈ set_of c r' <-> x ∈ imports /\ first_match env x = c) ->
            r = r').
  { intros [[a b] c] [[a' b'] c'] H H'.
    f_equal; [f_equal|]; apply set_eq; intros x.
    - by rewrite (H Stdlib x), (H' Stdlib x).
    - by rewrite (H ThirdParty x), (H' ThirdParty x).
    - by rewrite (H Local x), (H' Local x). }
  exists (a1, b1, c1), s1', s1'', s2'. split; [exact Hrun1|]. split.
  - rewrite Hrun2. f_equal. f_equal. by apply Heq.
  - rewrite Hrun3. f_equal. f_equal. by apply Heq.
Qed.

Lemma classification_ignores_state_witness :
  cache_ok Sample.env init_state /\
  cache_ok Sample.env (set_cache [("utils", false)] init_state) /\
  exists r s1' s1'' s2',
    classify_imports Sample.env {[ "os"; "utils" ]} init_state = (Ok r, s1')
    /\ classify_imports Sample.env {[ "os"; "utils" ]} s1' = (Ok r, s1'')
    /\ classify_imports Sample.env {[ "os"; "utils" ]}
         (set_cache [("utils", false)] init_state) = (Ok r, s2').
Proof.
  assert (Hok2 : cache_ok Sample.env (set_cache [("utils", false)] init_state)).
  { constructor; [reflexivity | constructor]. }
  split; [constructor|]. split; [exact Hok2|].
  apply (classification_ignores_state Sample.env {[ "os"; "utils" ]} init_state
           (set_cache [("utils", false)] init_state)); [constructor | exact Hok2].
Defined.

(** ** Further properties of the scan *)

(** X5 (only source files are read).  The scan consults the file system
    for nothing but the files of the walk whose name ends in [.py]: two
    environments with the same walk that agree on those files give the
    same run, whatever the other paths hold. *)
Theorem scan_reads_only_source_files (env1 env2 : Env) (path : string) (s : State) :
  os_walk env1 path = os_walk env2 path ->
  (forall f, f ∈ source_files env1 path ->
             read_and_parse env1 f = read_and_parse env2 f) ->
  scan_directory env1 path s = scan_directory env2 path s.
Proof.
  intros Hwalk Hagree. rewrite !scan_directory_flat.
  assert (Hfiles : source_files env2 path = source_files env1 path)
    by (unfold source_files; by rewrite Hwalk).
  rewrite Hfiles. apply bind_cong; [done|]. intros _ s1.
  apply bind_cong; [by apply scan_loop_ext | done].
Qed.

Lemma scan_reads_only_source_files_witness :
  os_walk Sample.env "/proj" = os_walk Variants.readme_parses "/proj" /\
  (forall f, f ∈ source_files Sample.env "/proj" ->
             read_and_parse Sample.env f = read_and_parse Variants.readme_parses f) /\
  read_and_parse Sample.env "/proj/README.md"
    <> read_and_parse Variants.readme_parses "/proj/README.md" /\
  scan_directory Sample.env "/proj" init_state
    = scan_directory Variants.readme_parses "/proj" init_state.
Proof.
  assert (Hagree : forall f, f ∈ source_files Sample.env "/proj" ->
            read_and_parse Sample.env f = read_and_parse Variants.readme_parses f).
  { intros f Hf.
    change (source_files Sample.env "/proj")
      with ["/proj/a.py"; "/proj/bad.py"; "/proj/pkg/b.py"] in Hf.
    repeat (apply elem_of_cons in Hf as [ -> | Hf ]);
      [reflexivity..|by apply elem_of_nil in Hf]. }
  split; [reflexivity|]. split; [exact Hagree|]. split; [discriminate|].
  apply (scan_reads_only_source_files Sample.env Variants.readme_parses "/proj"
           init_state); [reflexivity | exact Hagree].
Defined.

(** X6 (an exception that is not caught ends the scan).  When reading or
    parsing a source file raises an exception that is neither
    [SyntaxError], [UnicodeDecodeError] nor [OSError], the extractor lets
    it through without logging, and the scan of a tree that holds such a
    file raises such an exception instead of returning names; it has
    written no file and has not touched the cache. *)
Theorem scan_aborts_on_uncaught_exception (env : Env) (path : string) (s s0 : State)
    (f : string) (e : exn) :
  f ∈ source_files env path ->
  read_and_parse env f = Raise e ->
  skipped e = false ->
  extract_imports_from_file env f s0 = (Raise e, s0)
  /\ exists e' s',
       scan_directory env path s = (Raise e', s')
       /\ skipped e' = false
       /\ same_store s s'.
Proof.
  intros Hf Hparse Hskip. split; [by apply extract_propagates|].
  destruct (scan_directory_aborts env path s f e Hf Hparse Hskip)
    as (e' & pre & Hrun & Hskip').
  eexists e', _. split; [exact Hrun|]. split; [exact Hskip'|].
  split; reflexivity.
Qed.

Lemma scan_aborts_on_uncaught_exception_witness :
  "/proj/bad.py" ∈ source_files Variants.null_byte "/proj" /\
  read_and_parse Variants.null_byte "/proj/bad.py"
    = Raise (MkExn OtherException "source code string cannot contain null bytes") /\
  skipped (MkExn OtherException "source code string cannot contain null bytes") = false /\
  exists e' s',
    scan_directory Variants.null_byte "/proj" init_state = (Raise e', s')
    /\ skipped e' = false
    /\ same_store init_state s'.
Proof.
  assert (Hin : "/proj/bad.py" ∈ source_files Variants.null_byte "/proj").
  { change (source_files Variants.null_byte "/proj")
      with ["/proj/a.py"; "/proj/bad.py"; "/proj/pkg/b.py"].
    apply list_elem_of_further, list_elem_of_here. }
  split; [exact Hin|]. split; [reflexivity|]. split; [reflexivity|].
  apply (scan_aborts_on_uncaught_exception Variants.null_byte "/proj" init_state
           init_state "/proj/bad.py"
           (MkExn OtherException "source code string cannot contain null bytes")
           Hin eq_refl eq_refl).
Defined.

(** X7 (the order of the walk does not matter).  Two walks that list the
    same source files, in any order, give the same set of names, provided
    every file that fails does so with an exception the extractor
    catches. *)
Theorem scan_ignores_walk_order (env1 env2 : Env) (path1 path2 : string)
    (s1 s2 : State) :
  (forall f, read_and_parse env1 f = read_and_parse env2 f) ->
  source_files env1 path1 ≡ₚ source_files env2 path2 ->
  (forall f e, f ∈ source_files env1 path1 -> read_and_parse env1 f = Raise e ->
               skipped e = true) ->
  exists all_imports,
    fst (scan_directory env1 path1 s1) = Ok all_imports
    /\ fst (scan_directory env2 path2 s2) = Ok all_imports.
Proof.
  intros Hparse Hperm Hall.
  assert (Hall2 : forall f e, f ∈ source_files env2 path2 ->
            read_and_parse env2 f = Raise e -> skipped e = true).
  { intros f e Hf Hraise. apply (Hall f e); [by rewrite Hperm | by rewrite Hparse]. }
  exists (parsed_names env1 (source_files env1 path1)).
  rewrite (scan_directory_run env1 path1 s1 Hall),
          (scan_directory_run env2 path2 s2 Hall2). simpl.
  split; [done|]. f_equal. apply set_eq. intros x.
  rewrite !elem_of_parsed_names. split.
  - intros (f & tree & Hf & Hok & Hx). exists f, tree.
    by rewrite Hperm, Hparse.
  - intros (f & tree & Hf & Hok & Hx). exists f, tree.
    by rewrite <- Hperm, <- Hparse.
Qed.

Lemma scan_ignores_walk_order_witness :
  (forall f, read_and_parse Sample.env f = read_and_parse Variants.bottom_up f) /\
  source_files Sample.env "/proj" ≡ₚ source_files Variants.bottom_up "/proj" /\
  source_files Sample.env "/proj" <> source_files Variants.bottom_up "/proj" /\
  exists all_imports,
    fst (scan_directory Sample.env "/proj" init_state) = Ok all_imports
    /\ fst (scan_directory Variants.bottom_up "/proj" init_state) = Ok all_imports.
Proof.
  assert (Hperm : source_files Sample.env "/proj"
                  ≡ₚ source_files Variants.bottom_up "/proj").
  { change (["/proj/a.py"; "/proj/bad.py"; "/proj/pkg/b.py"]
            ≡ₚ ["/proj/pkg/b.py"; "/proj/bad.py"; "/proj/a.py"]).
    apply (Permutation_rev ["/proj/a.py"; "/proj/bad.py"; "/proj/pkg/b.py"]). }
  split; [reflexivity|]. split; [exact Hperm|]. split; [discriminate|].
  apply (scan_ignores_walk_order Sample.env Variants.bottom_up "/proj" "/proj"
           init_state init_state); [reflexivity | exact Hperm |].
  intros f e' Hf.
  change (source_files Sample.env "/proj")
    with ["/proj/a.py"; "/proj/bad.py"; "/proj/pkg/b.py"] in Hf.
  repeat (apply elem_of_cons in Hf as [ -> | Hf ]);
    [| |  |by apply elem_of_nil in Hf];
    vm_compute; intros [= <-]; reflexivity.
Defined.


(** ** Further properties of the manifest emitter *)

(** X9 (the emitter never raises).  [save_requirements] always returns
    normally; it changes no file but [requirements.txt] and leaves the
    cache alone; when the file cannot be opened it logs the failure as an
    error after the start record and writes nothing. *)
Theorem save_requirements_never_raises (env : Env) (third_party : gset string)
    (s : State) :
  exists s',
    save_requirements env third_party s = (Ok tt, s')
    /\ same_but_manifest s s'
    /\ forall e, open_for_writing env "requirements.txt" = Raise e ->
         s' = add_log [save_started; save_failed e] s.
Proof.
  destruct (save_requirements_total env third_party s) as (s' & Hrun).
  exists s'. split; [exact Hrun|]. split.
  - apply (preserves_save_requirements env third_party s s (Ok tt) s'
             (same_but_manifest_refl s) Hrun).
  - intros e Hopen. rewrite (save_requirements_open_fails _ _ _ _ Hopen) in Hrun.
    by injection Hrun as <-.
Qed.

Lemma save_requirements_never_raises_witness :
  open_for_writing Variants.read_only "requirements.txt"
    = Raise (MkExn OSError "[Errno 13] Permission denied: 'requirements.txt'") /\
  exists s',
    save_requirements Variants.read_only {[ "click" ]} init_state = (Ok tt, s')
    /\ same_but_manifest init_state s'
    /\ s' = add_log
              [save_started;
               save_failed (MkExn OSError "[Errno 13] Permission denied: 'requirements.txt'")]
              init_state.
Proof.
  split; [reflexivity|].
  destruct (save_requirements_never_raises Variants.read_only {[ "click" ]} init_state)
    as (s' & Hrun & Hframe & Hfail).
  exists s'. split; [exact Hrun|]. split; [exact Hframe|].
  apply Hfail. reflexivity.
Defined.



(** ** The index of installed modules *)

Lemma elem_of_add_inferred acc files x :
  x ∈ Discovery.add_inferred acc files
  <-> x ∈ acc
      \/ x ∈ map Discovery.top_level_of (List.filter (Str.endswith "__init__.py") files).
Proof.
  unfold Discovery.add_inferred. revert acc.
  induction files as [|file files IH]; intros acc; simpl.
  - rewrite elem_of_nil. tauto.
  - rewrite IH. destruct (Str.endswith "__init__.py" file); simpl.
    + rewrite elem_of_union, elem_of_singleton, elem_of_cons. tauto.
    + tauto.
Qed.

Lemma elem_of_add_distribution acc dist x :
  x ∈ Discovery.add_distribution acc dist
  <-> x ∈ acc \/ x ∈ Discovery.names_of dist.
Proof.
  unfold Discovery.add_distribution, Discovery.names_of.
  destruct (read_text_top_level dist) as [[txt|]|e].
  - destruct (String.eqb txt "").
    + destruct (dist_files dist) as [[files|]|e]; simpl;
        rewrite ?elem_of_add_inferred, ?elem_of_nil; simpl;
        rewrite ?elem_of_nil; tauto.
    + by rewrite elem_of_union, elem_of_list_to_set.
  - destruct (dist_files dist) as [[files|]|e]; simpl;
      rewrite ?elem_of_add_inferred, ?elem_of_nil; simpl;
      rewrite ?elem_of_nil; tauto.
  - rewrite elem_of_nil. tauto.
Qed.

Lemma elem_of_foldl_add_distribution acc distributions x :
  x ∈ foldl Discovery.add_distribution acc distributions
  <-> x ∈ acc \/ exists dist, dist ∈ distributions /\ x ∈ Discovery.names_of dist.
Proof.
  revert acc. induction distributions as [|d ds IH]; intros acc; simpl.
  - split; [auto | intros [?|(d & Hd & _)]; [done | by apply elem_of_nil in Hd]].
  - rewrite IH, elem_of_add_distribution. split.
    + intros [[?|?]|(d' & Hd' & ?)];
        eauto using list_elem_of_here, list_elem_of_further.
    + intros [?|(d' & Hd' & ?)]; [auto|].
      apply elem_of_cons in Hd' as [ -> |Hd']; eauto.
Qed.

(** the index holds what the distributions bring, and nothing else *)
Lemma elem_of_index distributions x :
  x ∈ Discovery.get_all_installed_top_level_modules distributions
  <-> exists dist, dist ∈ distributions /\ x ∈ Discovery.names_of dist.
Proof.
  unfold Discovery.get_all_installed_top_level_modules.
  rewrite elem_of_foldl_add_distribution, elem_of_empty. naive_solver.
Qed.

(** *** First segments, for any separator *)

Lemma hd_split_prefix sep s :
  exists rest, s = hd EmptyString (Str.split sep s) +:+ rest.
Proof.
  induction s as [|c s (rest & Hrest)]; simpl.
  - by exists "".
  - destruct (Ascii.eqb c sep); simpl.
    + by exists (String c s).
    + destruct (Str.split sep s) as [|seg segs] eqn:Hsplit;
        [by apply split_nonempty in Hsplit|].
      simpl in *. exists rest.
      change (String c seg +:+ rest) with (String c (seg +:+ rest)).
      by rewrite <- Hrest.
Qed.

Lemma hd_split_no_sep sep s :
  ~ In sep (list_ascii_of_string (hd EmptyString (Str.split sep s))).
Proof.
  induction s as [|c s IH]; simpl; [tauto|].
  destruct (Ascii.eqb c sep) eqn:Hc; simpl; [tauto|].
  destruct (Str.split sep s) as [|seg segs] eqn:Hsplit;
    [by apply split_nonempty in Hsplit|].
  simpl in *. intros [ -> |Hin]; [|tauto].
  by rewrite Ascii.eqb_refl in Hc.
Qed.

Lemma In_append_l c (a b : string) :
  In c (list_ascii_of_string a) -> In c (list_ascii_of_string (a +:+ b)).
Proof.
  induction a as [|x a IH]; simpl; [tauto|].
  intros [ -> |Hin]; [by left|]. right.
  change (In c (list_ascii_of_string (a +:+ b))). auto.
Qed.

Lemma top_level_of_no_separator file :
  ~ In "/"%char (list_ascii_of_string (Discovery.top_level_of file))
  /\ ~ In "\"%char (list_ascii_of_string (Discovery.top_level_of file)).
Proof.
  unfold Discovery.top_level_of. split; [|apply hd_split_no_sep].
  intros Hin.
  destruct (hd_split_prefix "\" (hd EmptyString (Str.split "/" file))) as (rest & Hrest).
  apply (hd_split_no_sep "/" file). rewrite Hrest. by apply In_append_l.
Qed.

(** *** One name per line *)

Ltac decide_codes :=
  repeat match goal with
         | |- context [Nat.eqb ?x ?y] => destruct (Nat.eqb_spec x y); [lia|]
         | |- context [Nat.leb ?x ?y] => destruct (Nat.leb_spec x y)
         end; simpl; try lia; try reflexivity.

Lemma line_break_len_printable c s :
  33 <= Text.code c <= 126 -> Text.line_break_len (String c s) = 0.
Proof. intros Hc. unfold Text.line_break_len. decide_codes. Qed.

Lemma whitespace_len_printable c s :
  33 <= Text.code c <= 126 -> Text.whitespace_len (String c s) = 0.
Proof. intros Hc. unfold Text.whitespace_len. decide_codes. Qed.

Lemma splitlines_line name text :
  Discovery.printable name ->
  Text.splitlines (name +:+ newline +:+ text) = name :: Text.splitlines text.
Proof.
  unfold Text.splitlines, Discovery.printable.
  induction name as [|c name IH]; intros Hp.
  - reflexivity.
  - simpl in Hp. apply Forall_cons in Hp as [Hc Hp].
    change (String c name +:+ newline +:+ text)
      with (String c (name +:+ newline +:+ text)).
    cbn [Text.splitlines_from].
    rewrite (line_break_len_printable c _ Hc). by rewrite (IH Hp).
Qed.

Lemma lstrip_printable c s :
  33 <= Text.code c <= 126 -> Text.lstrip (String c s) = String c s.
Proof.
  intros Hc. unfold Text.lstrip. cbn [Text.lstrip_from].
  by rewrite (whitespace_len_printable c s Hc).
Qed.

Lemma rstrip_printable name : Discovery.printable name -> Text.rstrip name = name.
Proof.
  unfold Discovery.printable. induction name as [|c name IH]; intros Hp; [done|].
  simpl in Hp. apply Forall_cons in Hp as [Hc Hp].
  cbn [Text.rstrip]. rewrite (lstrip_printable c name Hc). simpl.
  by rewrite (IH Hp).
Qed.

Lemma strip_printable name : Discovery.printable name -> Text.strip name = name.
Proof.
  intros Hp. unfold Text.strip. rewrite (rstrip_printable name Hp).
  destruct name as [|c name]; [done|].
  unfold Discovery.printable in Hp. simpl in Hp. apply Forall_cons in Hp as [Hc _].
  by apply lstrip_printable.
Qed.

Lemma declared_names_round_trip names :
  Forall Discovery.printable names -> Forall (fun name => name <> "") names ->
  Discovery.declared_names (Discovery.top_level_txt_of names) = names.
Proof.
  unfold Discovery.declared_names.
  induction names as [|name names IH]; intros Hp Hne; [done|].
  apply Forall_cons in Hp as [Hp Hps]. apply Forall_cons in Hne as [Hne Hnes].
  simpl. rewrite (splitlines_line name _ Hp). simpl.
  rewrite (strip_printable name Hp).
  destruct (String.eqb_spec name ""); [done|]. simpl.
  f_equal. by apply IH.
Qed.

Lemma top_level_txt_of_nonempty name names :
  name <> "" -> Discovery.top_level_txt_of (name :: names) <> "".
Proof. intros Hne. simpl. by destruct name. Qed.


(** ** Properties of the index of installed modules *)

(** X11 (distributions that cannot be introspected are skipped).  A
    distribution whose [top_level.txt] cannot be read, or that has no
    [top_level.txt] and whose file list cannot be read or is missing,
    adds nothing and does not stop the loop: the index is the one built
    without it. *)
Theorem unreadable_distribution_is_skipped (before after : list Distribution)
    (dist : Distribution) :
  (exists e, read_text_top_level dist = Raise e)
  \/ ((read_text_top_level dist = Ok None \/ read_text_top_level dist = Ok (Some ""))
      /\ ((exists e, dist_files dist = Raise e) \/ dist_files dist = Ok None)) ->
  Discovery.get_all_installed_top_level_modules (before ++ dist :: after)
  = Discovery.get_all_installed_top_level_modules (before ++ after).
Proof.
  intros Hdist.
  assert (Hnone : Discovery.names_of dist = []).
  { unfold Discovery.names_of.
    destruct Hdist as [[e ->]|[[-> | ->] [[e ->]| ->]]]; reflexivity. }
  apply set_eq. intros x. rewrite !elem_of_index. split.
  - intros (d & Hd & Hx). exists d. split; [|done].
    rewrite elem_of_app in Hd |- *. rewrite elem_of_cons in Hd.
    destruct Hd as [?|[ -> |?]]; auto.
    rewrite Hnone in Hx. by apply elem_of_nil in Hx.
  - intros (d & Hd & Hx). exists d. split; [|done].
    rewrite elem_of_app in Hd |- *. rewrite elem_of_cons. tauto.
Qed.

Lemma unreadable_distribution_is_skipped_witness :
  (exists e, read_text_top_level Installed.unreadable = Raise e) /\
  Discovery.get_all_installed_top_level_modules
    ([Installed.declares] ++ Installed.unreadable :: [Installed.infers])
  = Discovery.get_all_installed_top_level_modules
      ([Installed.declares] ++ [Installed.infers]).
Proof.
  assert (H : exists e, read_text_top_level Installed.unreadable = Raise e)
    by (eexists; reflexivity).
  split; [exact H|].
  apply (unreadable_distribution_is_skipped [Installed.declares] [Installed.infers]
           Installed.unreadable).
  left. exact H.
Defined.

(** X12 (declared names, one per line).  A distribution whose
    [top_level.txt] lists names one per line, each non-empty and made of
    printable ASCII characters other than the space, brings exactly those
    names; its file list is not looked at. *)
Theorem declared_names_are_read_back (dist : Distribution) (names : list string) :
  names <> [] ->
  Forall Discovery.printable names ->
  Forall (fun name => name <> "") names ->
  read_text_top_level dist = Ok (Some (Discovery.top_level_txt_of names)) ->
  Discovery.declared_names (Discovery.top_level_txt_of names) = names
  /\ Discovery.get_all_installed_top_level_modules [dist] = list_to_set names.
Proof.
  intros Hnames Hp Hne Hread.
  pose proof (declared_names_round_trip names Hp Hne) as Hround.
  split; [exact Hround|].
  apply set_eq. intros x. rewrite elem_of_index, elem_of_list_to_set.
  assert (Hof : Discovery.names_of dist = names).
  { unfold Discovery.names_of. rewrite Hread.
    destruct names as [|name names']; [done|].
    apply Forall_cons in Hne as [Hne _].
    destruct (String.eqb_spec (Discovery.top_level_txt_of (name :: names')) "")
      as [Hempty|_]; [by apply top_level_txt_of_nonempty in Hempty|].
    exact Hround. }
  split.
  - intros (d & Hd & Hx). apply list_elem_of_singleton in Hd as ->.
    by rewrite Hof in Hx.
  - intros Hx. exists dist. split; [apply list_elem_of_here | by rewrite Hof].
Qed.

Lemma declared_names_are_read_back_witness :
  ["yaml"; "_yaml"] <> [] /\
  Forall Discovery.printable ["yaml"; "_yaml"] /\
  Forall (fun name => name <> "") ["yaml"; "_yaml"] /\
  read_text_top_level Installed.declares
    = Ok (Some (Discovery.top_level_txt_of ["yaml"; "_yaml"])) /\
  Discovery.get_all_installed_top_level_modules [Installed.declares]
  = list_to_set ["yaml"; "_yaml"].
Proof.
  assert (Hp : Forall Discovery.printable ["yaml"; "_yaml"]).
  { repeat constructor; unfold Text.code; simpl; lia. }
  assert (Hne : Forall (fun name => name <> "") ["yaml"; "_yaml"])
    by (repeat constructor; discriminate).
  split; [discriminate|]. split; [exact Hp|]. split; [exact Hne|].
  split; [reflexivity|].
  apply (declared_names_are_read_back Installed.declares ["yaml"; "_yaml"]);
    [discriminate | exact Hp | exact Hne | reflexivity].
Defined.

(** X13 (names inferred from the files).  A distribution without a
    [top_level.txt], or with an empty one, brings the first path segment
    of each of its files whose path ends in [__init__.py], and nothing
    else; such a name holds neither a slash nor a backslash.  A
    distribution made of plain modules therefore brings nothing. *)
Theorem inferred_names_come_from_init_files (dist : Distribution)
    (files : list string) (x : string) :
  read_text_top_level dist = Ok None \/ read_text_top_level dist = Ok (Some "") ->
  dist_files dist = Ok (Some files) ->
  (x ∈ Discovery.get_all_installed_top_level_modules [dist]
   <-> exists file,
         file ∈ files /\ Str.endswith "__init__.py" file = true
         /\ x = Discovery.top_level_of file)
  /\ (forall file,
        ~ In "/"%char (list_ascii_of_string (Discovery.top_level_of file))
        /\ ~ In "\"%char (list_ascii_of_string (Discovery.top_level_of file)))
  /\ ((forall file, file ∈ files -> Str.endswith "__init__.py" file = false) ->
      Discovery.get_all_installed_top_level_modules [dist] = ∅).
Proof.
  intros Hread Hfiles.
  assert (Hof : Discovery.names_of dist
            = map Discovery.top_level_of
                (List.filter (Str.endswith "__init__.py") files)).
  { unfold Discovery.names_of. destruct Hread as [-> | ->]; by rewrite Hfiles. }
  assert (Hiff : forall y,
            y ∈ Discovery.get_all_installed_top_level_modules [dist]
            <-> exists file,
                  file ∈ files /\ Str.endswith "__init__.py" file = true
                  /\ y = Discovery.top_level_of file).
  { intros y. rewrite elem_of_index. split.
    - intros (d & Hd & Hy). apply list_elem_of_singleton in Hd as ->.
      rewrite Hof in Hy.
      apply list_elem_of_In, in_map_iff in Hy as (file & <- & Hin).
      apply List.filter_In in Hin as [Hin Hend].
      exists file. by rewrite list_elem_of_In.
    - intros (file & Hin & Hend & ->). exists dist.
      split; [apply list_elem_of_here|]. rewrite Hof.
      apply list_elem_of_In, in_map_iff. exists file. split; [done|].
      apply List.filter_In. by rewrite <- list_elem_of_In. }
  split; [apply Hiff|]. split; [apply top_level_of_no_separator|].
  intros Hnone. apply set_eq. intros y. rewrite Hiff, elem_of_empty.
  split; [|done]. intros (file & Hin & Hend & _).
  rewrite (Hnone file Hin) in Hend. discriminate.
Qed.

Lemma inferred_names_come_from_init_files_witness :
  (read_text_top_level Installed.infers = Ok None
   \/ read_text_top_level Installed.infers = Ok (Some "")) /\
  dist_files Installed.infers
    = Ok (Some ["PIL/__init__.py"; "PIL/Image.py"; "six.py"; "PIL/sub/__init__.py"]) /\
  ("PIL" ∈ Discovery.get_all_installed_top_level_modules [Installed.infers]
   <-> exists file,
         file ∈ ["PIL/__init__.py"; "PIL/Image.py"; "six.py"; "PIL/sub/__init__.py"]
         /\ Str.endswith "__init__.py" file = true
         /\ "PIL" = Discovery.top_level_of file).
Proof.
  split; [by left|]. split; [reflexivity|].
  apply (inferred_names_come_from_init_files Installed.infers
           ["PIL/__init__.py"; "PIL/Image.py"; "six.py"; "PIL/sub/__init__.py"] "PIL");
    [by left | reflexivity].
Defined.



(** ** The command line *)




Lemma preservesP_ret {A} (I : Process -> Prop) (a : A) : preservesP I (retP a).
Proof. intros p r p' HI [= <- <-]. exact HI. Qed.

Lemma preservesP_call {A} (I : Process -> Prop) (r : result A) :
  preservesP I (callP r).
Proof. intros p r' p' HI [= <- <-]. exact HI. Qed.

Lemma preservesP_bind {A B} (I : Process -> Prop) (m : P A) (k : A -> P B) :
  preservesP I m -> (forall a, preservesP I (k a)) -> preservesP I (bindP m k).
Proof.
  intros Hm Hk p r p' HI Hrun. unfold bindP in Hrun.
  destruct (m p) as [[a|e] p1] eqn:Hmp.
  - apply (Hk a p1 r p'); [|done]. by apply (Hm p (Ok a) p1).
  - injection Hrun as <- <-. by apply (Hm p (Raise e) p1).
Qed.

Lemma preservesP_try_except {A} (I : Process -> Prop) (body : P A)
    (handler : exn -> option (P A)) :
  preservesP I body ->
  (forall e h, handler e = Some h -> preservesP I h) ->
  preservesP I (try_exceptP body handler).
Proof.
  intros Hbody Hh p r p' HI Hrun. unfold try_exceptP in Hrun.
  destruct (body p) as [[a|e] p1] eqn:Hbp.
  - injection Hrun as <- <-. by apply (Hbody p (Ok a) p1).
  - assert (I p1) by (by apply (Hbody p (Raise e) p1)).
    destruct (handler e) as [h|] eqn:Hhe.
    + by apply (Hh e h Hhe p1 r p').
    + by injection Hrun as <- <-.
Qed.

Lemma preservesP_run_logger {A} lv hs (m : M A) :
  preservesP (logger_is lv hs) (run m).
Proof.
  intros p r p' HI. unfold run. destruct (m (state p)) as [r' s].
  intros [= <- <-]. exact HI.
Qed.

Lemma preservesP_print_logger lv hs line : preservesP (logger_is lv hs) (print line).
Proof. intros p r p' HI [= <- <-]. exact HI. Qed.

(** whatever follows the set-up leaves the logger as it is *)
Lemma preservesP_after_setup env paths args lv hs :
  preservesP (logger_is lv hs)
    (try_exceptP
       (let! path := callP (path_resolve paths (args_path args)) in
        if negb (path_exists paths path) || negb (path_is_dir paths path) then
          run (logger ERROR ("❌ Invalid path: " +:+ path)) ;!
          print ("❌ Invalid path: " +:+ path)
        else
          let! all_imports := run (scan_directory env path) in
          let! classified := run (classify_imports env all_imports) in
          let '(stdlib, third_party, local) := classified in
          print (newline +:+ "📦 Third-Party Packages (installed via pip):") ;!
          print (listing third_party) ;!
          print (newline +:+ "📁 Local Modules (your own project's files/modules):") ;!
          print (listing local) ;!
          print (newline +:+ "📚 Standard Library (built-in Python modules):") ;!
          print (listing stdlib) ;!
          if args_save args then run (save_requirements env third_party)
          else retP tt)
       (fun e => Some
          (run (logger ERROR ("❌ Unexpected error: " +:+ exn_str e)) ;!
           print "❌ An unexpected error occurred. Check importscanner.log for details."))).
Proof.
  apply preservesP_try_except.
  - apply preservesP_bind; [apply preservesP_call|]. intros path.
    destruct (negb (path_exists paths path) || negb (path_is_dir paths path)).
    + apply preservesP_bind; [apply preservesP_run_logger|].
      intros _. apply preservesP_print_logger.
    + apply preservesP_bind; [apply preservesP_run_logger|]. intros all_imports.
      apply preservesP_bind; [apply preservesP_run_logger|].
      intros [[stdlib third_party] local].
      repeat (apply preservesP_bind; [apply preservesP_print_logger|]; intros _).
      destruct (args_save args); [apply preservesP_run_logger | apply preservesP_ret].
  - intros e h [= <-].
    apply preservesP_bind; [apply preservesP_run_logger|].
    intros _. apply preservesP_print_logger.
Qed.

Lemma setup_logger_run paths enable p :
  (enable = true -> open_log_file paths "importscanner.log" = Ok tt) ->
  setup_logger paths enable p
  = (Ok tt, set_logger DEBUG (installed_handlers enable) p).
Proof.
  intros Hopen. unfold setup_logger, bindP, callP, retP. simpl.
  destruct enable; simpl; [rewrite Hopen by done|]; reflexivity.
Qed.

Lemma setup_logger_fails paths p e :
  open_log_file paths "importscanner.log" = Raise e ->
  setup_logger paths true p = (Raise e, set_logger DEBUG [console_handler] p).
Proof.
  intros Hopen. unfold setup_logger, bindP, callP. simpl. by rewrite Hopen.
Qed.



(** however [main] ends, the logger is at level DEBUG with the console
    handler first, and after it the file handler or nothing *)
Lemma main_configures_logger env paths args p r p' :
  main env paths args p = (r, p') ->
  logger_level p' = DEBUG
  /\ (handlers p' = [console_handler]
      \/ (handlers p' = [console_handler; file_handler] /\ args_log args = true)).
Proof.
  unfold main. intros Hrun. unfold bindP in Hrun.
  destruct (args_log args) eqn:Hlog.
  - destruct (open_log_file paths "importscanner.log") as [[]|e] eqn:Hopen.
    + rewrite (setup_logger_run paths true p (fun _ => Hopen)) in Hrun.
      assert (Hset : logger_is DEBUG (installed_handlers true)
                       (set_logger DEBUG (installed_handlers true) p)) by (by split).
      destruct (preservesP_after_setup env paths args DEBUG
                  (installed_handlers true) _ r p' Hset Hrun) as [Hlv Hhs].
      split; [done|]. right. by rewrite Hhs.
    + rewrite (setup_logger_fails paths p e Hopen) in Hrun.
      injection Hrun as <- <-. split; [done|]. by left.
  - rewrite (setup_logger_run paths false p (fun H => ltac:(discriminate H))) in Hrun.
    assert (Hset : logger_is DEBUG (installed_handlers false)
                     (set_logger DEBUG (installed_handlers false) p)) by (by split).
    destruct (preservesP_after_setup env paths args DEBUG
                (installed_handlers false) _ r p' Hset Hrun) as [Hlv Hhs].
    split; [done|]. left. by rewrite Hhs.
Qed.

(** ** Properties of the command line *)








(** X19 (what reaches the console).  However [main] ends, the logger it
    leaves behind passes a record to the console handler exactly when the
    level of the record is not DEBUG, and to the file handler at every
    level; the console handler is always installed, the file handler only
    with [--log]. *)
Theorem console_shows_all_but_debug (env : Env) (paths : Paths) (args : Args)
    (p : Process) (lv : level) :
  let p' := snd (main env paths args p) in
  (reaches p' console_handler lv = true <-> lv <> DEBUG)
  /\ reaches p' file_handler lv = true
  /\ console_handler ∈ handlers p'
  /\ (file_handler ∈ handlers p' -> args_log args = true).
Proof.
  destruct (main env paths args p) as [r p'] eqn:Hrun. simpl.
  destruct (main_configures_logger env paths args p r p' Hrun) as [Hlv Hhs].
  unfold reaches. rewrite Hlv. split; [|split; [|split]].
  - destruct lv; simpl; split; try done; intros H; by destruct H.
  - by destruct lv.
  - destruct Hhs as [-> | [-> _]]; apply list_elem_of_here.
  - destruct Hhs as [-> | [-> Hlog]]; [|done].
    intros Hin. apply list_elem_of_singleton in Hin. discriminate Hin.
Qed.

Lemma console_shows_all_but_debug_witness :
  let p' := snd (main Sample.env Shell.paths (MkArgs "." false false) init_process) in
  (reaches p' console_handler DEBUG = true <-> DEBUG <> DEBUG)
  /\ reaches p' file_handler DEBUG = true
  /\ console_handler ∈ handlers p'
  /\ (file_handler ∈ handlers p' -> args_log (MkArgs "." false false) = true).
Proof.
  apply (console_shows_all_but_debug Sample.env Shell.paths (MkArgs "." false false)
           init_process DEBUG).
Defined.

(** ** One more property of the extractor *)

Lemma top_level_names_plain_imports tree :
  top_level_names (plain_imports tree) = top_level_names tree.
Proof.
  induction tree as [names|m names lv|a|children IH] using node_induction;
    simpl; try done.
  - by rewrite map_map.
  - f_equal. rewrite map_map. apply map_ext_in.
    rewrite List.Forall_forall in IH. auto.
Qed.

(** X20 (modules, not members).  The extractor reports the modules that
    are imported and nothing about how: two files whose trees differ only
    in the as-names, in the names a [from ... import] brings in, or in the
    levels give the same set. *)
Theorem extractor_reports_modules_only (env : Env) (file1 file2 : string)
    (tree1 tree2 : node) (s1 s2 : State) :
  read_and_parse env file1 = Ok tree1 ->
  read_and_parse env file2 = Ok tree2 ->
  plain_imports tree1 = plain_imports tree2 ->
  exists imports,
    extract_imports_from_file env file1 s1 = (Ok imports, s1)
    /\ extract_imports_from_file env file2 s2 = (Ok imports, s2).
Proof.
  intros Hparse1 Hparse2 Hsame. exists (top_level_names tree1).
  rewrite (extract_parsed env file1 tree1 s1 Hparse1).
  rewrite (extract_parsed env file2 tree2 s2 Hparse2).
  split; [done|]. f_equal. f_equal.
  rewrite <- (top_level_names_plain_imports tree2), <- Hsame.
  apply top_level_names_plain_imports.
Qed.

Lemma extractor_reports_modules_only_witness :
  read_and_parse Variants.two_spellings "/proj/one.py" = Ok Variants.tree_one /\
  read_and_parse Variants.two_spellings "/proj/two.py" = Ok Variants.tree_two /\
  plain_imports Variants.tree_one = plain_imports Variants.tree_two /\
  Variants.tree_one <> Variants.tree_two /\
  exists imports,
    extract_imports_from_file Variants.two_spellings "/proj/one.py" init_state
      = (Ok imports, init_state)
    /\ extract_imports_from_file Variants.two_spellings "/proj/two.py" init_state
       = (Ok imports, init_state).
Proof.
  split; [reflexivity|]. split; [reflexivity|]. split; [reflexivity|].
  split; [discriminate|].
  apply (extractor_reports_modules_only Variants.two_spellings
           "/proj/one.py" "/proj/two.py" Variants.tree_one Variants.tree_two
           init_state init_state); reflexivity.
Defined.
